(** * carla_simulation.vehicle_info_publisher: the sensor republishing node

    A shallow embedding of [src/carla_simulation/vehicle_info_publisher.py].

    The module is Python: every message is an object reached through a
    reference, attributes are looked up by name, and an assignment binds a
    reference (it never copies).  Several statements of the node depend on
    exactly that ([self.header = msg.header] followed by
    [self.header.frame_id = "odom"] writes into the message that was
    received; [self.gps_data.header = ...] writes into an object owned by
    the class).  The embedding therefore keeps

    - a store [heap] of objects, each an attribute dictionary;
    - the instance dictionary of the node ([self.__dict__]) and the
      dictionary of the class, consulted in that order by [self.attr];
    - a trace of what the node asks of [logging] and [rclpy];
    - the exceptions Python raises on a missing attribute.

    Numbers are IEEE binary64 floats, as in Python.

    What is outside the module is kept abstract.  rclpy answers a request
    for a subscription, a publisher or a timer with a handle or with an
    exception; the QoS profile, the same constant in all nine requests, is
    left out.  The executor runs one callback at a time.  Assigning to a
    field of a message is Python's attribute assignment: the type checks
    that generated message classes may add to their setters are not
    modelled.  One node is constructed per process.

    The keyboard controller of [src/main.py] ([KeyboardControl]) is embedded
    after the node, with a state and a monad of its own: it shares no
    object with the node. *)

From Stdlib Require Import ZArith String List PrimFloat.
From Stdlib Require Uint63 SpecFloat FloatOps FloatAxioms.
From stdpp Require Import base option list gmap strings fin_maps.

Local Open Scope string_scope.
Local Open Scope list_scope.
Set Warnings "-register-all".

(** ** Values *)

Abbreviation loc := positive (only parsing).

Module carla.
  (** [carla.Vector3D]; [carla.Location] is its subclass with the same
      three fields. *)
Record Vector3D := { x : float; y : float; z : float }.
Record Rotation := { pitch : float; yaw : float; roll : float }.
Record Transform := { location : Vector3D; rotation : Rotation }.
End carla.

Module geometry_msgs.
Record Vector3 := { x : float; y : float; z : float }.
Record Quaternion := { qx : float; qy : float; qz : float; qw : float }.
Record Twist := { linear : Vector3; angular : Vector3 }.
End geometry_msgs.

(** Python values.  Objects that some statement of the node assigns into
    (headers, messages, the node itself) are references into the store.
    [Vector3], [Twist], [Quaternion], [Time] and [carla.Rotation] objects are
    only ever read by the node, so they are carried as immutable values. *)
Inductive val :=
  | VNone
  | VBool (b : bool)
  | VInt (n : Z)
  | VFloat (f : float)
  | VStr (s : string)
  | VBytes (b : list Byte.byte)
  | VList (l : list val)
  | VDict (d : gmap string val)
  | VRef (l : loc)
  | VTime (sec nanosec : Z)
  | VVector3 (v : geometry_msgs.Vector3)
  | VQuaternion (q : geometry_msgs.Quaternion)
  | VTwist (t : geometry_msgs.Twist)
  | VRotation (r : carla.Rotation)
  | VActor (id : Z)
  | VHandle (h : nat).

(** An object is its attribute dictionary; a [Dict] has the same shape. *)
Abbreviation obj := (gmap string val) (only parsing).

(** What the simulator answers for [self.vehicle] at the moment it is asked. *)
Record Kinematics := {
  velocity : carla.Vector3D;
  angular_velocity : carla.Vector3D;
  transform : carla.Transform }.

(** ** Requests to the outside world *)

Inductive request :=
  | RSubscription (msg_type : string) (topic : val) (callback : string)
  | RPublisher (msg_type : string) (topic : val)
  | RTimer (period : val) (callback : string).

Inductive event :=
  | ELog (level msg : string)
  | ENode (name : string)
  | ECreate (h : nat) (r : request)
  | ECancel (h : nat)
  | EDestroy (h : nat)
  | EPublish (h : nat) (msg : val).

Inductive exn :=
  | AttributeError
  | TypeError
  | RclpyError (r : request).

(** ** The world and the monad of statements *)

Record world := World {
  heap : gmap loc (gmap string val);
  self_dict : gmap string val;
  sim : Kinematics;
  handles : nat;
  trace : list event }.

Inductive outcome (A : Type) :=
  | Return (a : A)
  | Raise (e : exn).
Arguments Return {A} a.
Arguments Raise {A} e.

(** A statement runs in a world and leaves a world behind, also when it
    raises: what was assigned before the exception stays assigned. *)
Definition M (A : Type) : Type := world -> outcome A * world.

#[global] Instance M_ret : MRet M := fun A a w => (Return a, w).
#[global] Instance M_bind : MBind M := fun A B f c w =>
  match c w with
  | (Return a, w') => f a w'
  | (Raise e, w') => (Raise e, w')
  end.

Definition raise {A} (e : exn) : M A := fun w => (Raise e, w).

Definition set_heap (h : gmap loc (gmap string val)) (w : world) : world :=
  World h (self_dict w) (sim w) (handles w) (trace w).
Definition set_self_dict (d : gmap string val) (w : world) : world :=
  World (heap w) d (sim w) (handles w) (trace w).
Definition set_sim (k : Kinematics) (w : world) : world :=
  World (heap w) (self_dict w) k (handles w) (trace w).
Definition emit (e : event) (w : world) : world :=
  World (heap w) (self_dict w) (sim w) (handles w) (trace w ++ [e]).
Definition new_handle (w : world) : world :=
  World (heap w) (self_dict w) (sim w) (S (handles w)) (trace w).

(** ** Python primitives *)

Section Primitives.

  (** The class body of [VehicleInfoPublisher] binds these names once, when
      the module is loaded; the objects they refer to are in [class_heap]
      below.  No statement of the module assigns to a class attribute, so
      the dictionary itself never changes. *)
Definition class_dict : gmap string val :=
  list_to_map [
    ("header", VRef 1);
    ("carla_lidar_data", VRef 2);
    ("carla_gnss_data", VRef 4);
    ("carla_imu_data", VRef 6);
    ("lidar_data", VRef 8);
    ("imu_data", VRef 10);
    ("position_data", VRef 12);
    ("gps_data", VRef 14);
    ("odom_data", VRef 18);
    ("velocity_data", VRef 26);
    ("pseudo_odom", VRef 28);
    ("pseudo_position", VVector3 (geometry_msgs.Build_Vector3 0 0 0));
    ("pseudo_velocity",
       VTwist (geometry_msgs.Build_Twist (geometry_msgs.Build_Vector3 0 0 0)
                                         (geometry_msgs.Build_Vector3 0 0 0)));
    ("pseudo_heading", VNone) ].

  (** [self.a] as an expression: the instance dictionary first, then the
      class. *)
Definition lookup_self (d : gmap string val) (a : string) : option val :=
  match d !! a with
  | Some v => Some v
  | None => class_dict !! a
  end.

Definition self_attr (w : world) (a : string) : option val :=
  lookup_self (self_dict w) a.

Definition getself (a : string) : M val := fun w =>
  match self_attr w a with
  | Some v => (Return v, w)
  | None => (Raise AttributeError, w)
  end.

  (** [self.a = v] always binds in the instance dictionary. *)
Definition setself (a : string) (v : val) : M unit := fun w =>
  (Return tt, set_self_dict (<[a := v]> (self_dict w)) w).

  (** [hasattr(self, a)] *)
Definition hasself (a : string) : M bool := fun w =>
  (Return (bool_decide (is_Some (self_attr w a))), w).

  (** [v.a] as an expression. *)
Definition attr_of (h : gmap loc (gmap string val)) (v : val) (a : string)
  : option val :=
  match v with
  | VRef l => o ← h !! l; o !! a
  | VVector3 u =>
      if decide (a = "x") then Some (VFloat (geometry_msgs.x u))
      else if decide (a = "y") then Some (VFloat (geometry_msgs.y u))
      else if decide (a = "z") then Some (VFloat (geometry_msgs.z u))
      else None
  | VTwist t =>
      if decide (a = "linear") then Some (VVector3 (geometry_msgs.linear t))
      else if decide (a = "angular") then Some (VVector3 (geometry_msgs.angular t))
      else None
  | VRotation r =>
      if decide (a = "pitch") then Some (VFloat (carla.pitch r))
      else if decide (a = "yaw") then Some (VFloat (carla.yaw r))
      else if decide (a = "roll") then Some (VFloat (carla.roll r))
      else None
  | _ => None
  end.

Definition getattr (v : val) (a : string) : M val := fun w =>
  match attr_of (heap w) v a with
  | Some x => (Return x, w)
  | None => (Raise AttributeError, w)
  end.

  (** [v.a = x]: writes into the object [v] refers to, in place.  Every
      holder of a reference to that object sees the new attribute. *)
Definition write (l : loc) (a : string) (x : val)
    (h : gmap loc (gmap string val)) : gmap loc (gmap string val) :=
  alter (insert a x) l h.

Definition setattr (v : val) (a : string) (x : val) : M unit := fun w =>
  match v with
  | VRef l =>
      match heap w !! l with
      | Some _ => (Return tt, set_heap (write l a x (heap w)) w)
      | None => (Raise AttributeError, w)
      end
  | _ => (Raise AttributeError, w)
  end.

  (** [d.get(k)] on a [Dict]: [None] when the key is absent. *)
Definition dict_get (d : gmap string val) (k : string) : val :=
  default VNone (d !! k).

  (** Python truth value, as [not v] tests it. *)
Definition truthy (v : val) : bool :=
  match v with
  | VNone => false
  | VBool b => b
  | VInt n => negb (n =? 0)%Z
  | VFloat f => negb (f =? 0)%float
  | VStr s => negb (String.eqb s "")
  | VBytes b => negb (bool_decide (b = []))
  | VList l => match l with [] => false | _ => true end
  | VDict d => negb (bool_decide (size d = 0%nat))
  | _ => true
  end.

  (** [float(n)] for an [int] below 2^63 in magnitude: the nearest
      [float] (exact below 2^53).  Larger ints are outside the model:
      Python rounds them too, and raises OverflowError beyond the range
      of [float]. *)
Definition float_of_int (n : Z) : float :=
  match n with
  | Z0 => 0%float
  | Zpos _ => PrimFloat.of_uint63 (Uint63.of_Z n)
  | Zneg p => (- PrimFloat.of_uint63 (Uint63.of_Z (Zpos p)))%float
  end.

  (** [v - n] for an [int] literal [n]: a float operand makes it a float
      subtraction, Python converting [n] first. *)
Definition py_sub (v : val) (n : Z) : M val :=
  match v with
  | VFloat f => mret (VFloat (f - float_of_int n)%float)
  | VInt m => mret (VInt (m - n))
  | _ => raise TypeError
  end.

  (** [logging.<level>(msg)] *)
Definition logging (level msg : string) : M unit := fun w =>
  (Return tt, emit (ELog level msg) w).

End Primitives.

(** ** The collaborators: rclpy, carla, carla_data_to_ros *)

Section Collaborators.

  (** rclpy is outside the repository.  A request to create an entity is
      answered by [rcl]: accepted, it yields a new handle; refused, the call
      raises.  Calls on a handle are recorded in the trace. *)
  Variable rcl : request -> bool.

Definition create (r : request) : M val := fun w =>
  if rcl r
  then (Return (VHandle (handles w)), emit (ECreate (handles w) r) (new_handle w))
  else (Raise (RclpyError r), w).

Definition create_subscription (msg_type : string) (topic : val)
    (callback : string) : M val :=
  create (RSubscription msg_type topic callback).

Definition create_publisher (msg_type : string) (topic : val) : M val :=
  create (RPublisher msg_type topic).

Definition create_timer (period : val) (callback : string) : M val :=
  create (RTimer period callback).

End Collaborators.

Definition node_init (name : string) : M unit := fun w =>
  (Return tt, emit (ENode name) w).

Definition on_handle (e : nat -> event) (v : val) : M unit := fun w =>
  match v with
  | VHandle h => (Return tt, emit (e h) w)
  | _ => (Raise AttributeError, w)
  end.

(** [timer.cancel()], [pub.destroy()], [pub.publish(msg)] *)
Definition cancel (timer : val) : M unit := on_handle ECancel timer.
Definition destroy (pub : val) : M unit := on_handle EDestroy pub.
Definition publish (pub msg : val) : M unit :=
  on_handle (fun h => EPublish h msg) pub.

(** The three queries of [carla.Vehicle]. *)
Definition ask {A} (f : Kinematics -> A) (vehicle : val) : M A := fun w =>
  match vehicle with
  | VActor _ => (Return (f (sim w)), w)
  | _ => (Raise AttributeError, w)
  end.

Definition get_velocity : val -> M carla.Vector3D := ask velocity.
Definition get_angular_velocity : val -> M carla.Vector3D := ask angular_velocity.
Definition get_transform : val -> M carla.Transform := ask transform.

(** Modelled from the spec: the module [carla_data_to_ros] is imported by
    the node but is not among the sources.  Section 4.1 gives both of its
    conversions as direct field copies; [copy3] is that copy. *)
Definition copy3 (u : carla.Vector3D) : geometry_msgs.Vector3 :=
  geometry_msgs.Build_Vector3 (carla.x u) (carla.y u) (carla.z u).

(** Modelled from the spec: [carla_data_to_ros.carla_location_to_ros_vector3],
    section 4.1 [positionToVector], a direct field copy. *)
Definition carla_location_to_ros_vector3 (l : carla.Vector3D) : val :=
  VVector3 (copy3 l).

(** Modelled from the spec: [carla_data_to_ros.carla_velocity_to_ros_twist],
    section 4.1 [kinematicsToTwist], a direct field copy into a linear and
    angular pair. *)
Definition carla_velocity_to_ros_twist (v a : carla.Vector3D) : val :=
  VTwist (geometry_msgs.Build_Twist (copy3 v) (copy3 a)).

(** ** The objects made by the class body *)

Module msg.

Definition zero3 : val := VVector3 (geometry_msgs.Build_Vector3 0 0 0).
Definition zeros9 : val := VList (replicate 9 (VFloat 0)).

Definition Header : gmap string val :=
  list_to_map [("stamp", VTime 0 0); ("frame_id", VStr "")].

Definition PointCloud2 (header : loc) : gmap string val :=
  list_to_map [
    ("header", VRef header); ("height", VInt 0); ("width", VInt 0);
    ("fields", VList []); ("is_bigendian", VBool false);
    ("point_step", VInt 0); ("row_step", VInt 0);
    ("data", VBytes []); ("is_dense", VBool false) ].

Definition NavSatFix (header : loc) : gmap string val :=
  list_to_map [
    ("header", VRef header); ("latitude", VFloat 0); ("longitude", VFloat 0);
    ("altitude", VFloat 0); ("position_covariance", zeros9);
    ("position_covariance_type", VInt 0) ].

Definition Imu (header : loc) : gmap string val :=
  list_to_map [
    ("header", VRef header);
    ("orientation", VQuaternion (geometry_msgs.Build_Quaternion 0 0 0 1));
    ("orientation_covariance", zeros9);
    ("angular_velocity", zero3);
    ("angular_velocity_covariance", zeros9);
    ("linear_acceleration", zero3);
    ("linear_acceleration_covariance", zeros9) ].

Definition Vector3Stamped (header : loc) : gmap string val :=
  list_to_map [("header", VRef header); ("vector", zero3)].

Definition GpswithHeading (header gps : loc) : gmap string val :=
  list_to_map [
    ("header", VRef header); ("gps", VRef gps);
    ("roll", VFloat 0); ("pitch", VFloat 0); ("heading", VFloat 0) ].

Definition Pose : gmap string val :=
  list_to_map [
    ("position", zero3);
    ("orientation", VQuaternion (geometry_msgs.Build_Quaternion 0 0 0 1)) ].

Definition PoseWithCovariance (pose : loc) : gmap string val :=
  list_to_map [("pose", VRef pose); ("covariance", VList (replicate 36 (VFloat 0)))].

Definition TwistWithCovariance : gmap string val :=
  list_to_map [
    ("twist", VTwist (geometry_msgs.Build_Twist
                        (geometry_msgs.Build_Vector3 0 0 0)
                        (geometry_msgs.Build_Vector3 0 0 0)));
    ("covariance", VList (replicate 36 (VFloat 0))) ].

Definition Odometry (header pose twist : loc) : gmap string val :=
  list_to_map [
    ("header", VRef header); ("child_frame_id", VStr "");
    ("pose", VRef pose); ("twist", VRef twist) ].

Definition OdometrywithGps (header gps odometry : loc) : gmap string val :=
  list_to_map [
    ("header", VRef header); ("gps", VRef gps); ("odometry", VRef odometry) ].

Definition InsVelocity (header : loc) : gmap string val :=
  list_to_map [
    ("header", VRef header); ("angular_velocity", zero3);
    ("linear_velocity", zero3) ].

End msg.

(** The store right after the class body has run: every default message and
    the sub-objects its constructor made. *)
Definition class_heap : gmap loc (gmap string val) :=
  list_to_map [
    (1, msg.Header);
    (2, msg.PointCloud2 3); (3, msg.Header);
    (4, msg.NavSatFix 5); (5, msg.Header);
    (6, msg.Imu 7); (7, msg.Header);
    (8, msg.PointCloud2 9); (9, msg.Header);
    (10, msg.Imu 11); (11, msg.Header);
    (12, msg.Vector3Stamped 13); (13, msg.Header);
    (14, msg.GpswithHeading 15 16); (15, msg.Header);
    (16, msg.NavSatFix 17); (17, msg.Header);
    (18, msg.OdometrywithGps 19 20 22); (19, msg.Header);
    (20, msg.NavSatFix 21); (21, msg.Header);
    (22, msg.Odometry 23 24 25); (23, msg.Header);
    (24, msg.PoseWithCovariance 32); (25, msg.TwistWithCovariance);
    (26, msg.InsVelocity 27); (27, msg.Header);
    (28, msg.Odometry 29 30 31); (29, msg.Header);
    (30, msg.PoseWithCovariance 33); (31, msg.TwistWithCovariance);
    (32, msg.Pose); (33, msg.Pose) ]%positive.

Definition still : Kinematics :=
  Build_Kinematics (carla.Build_Vector3D 0 0 0) (carla.Build_Vector3D 0 0 0)
    (carla.Build_Transform (carla.Build_Vector3D 0 0 0) (carla.Build_Rotation 0 0 0)).

(** The world before any node is constructed. *)
Definition boot : world := World class_heap ∅ still 0 [].

(** ** check_config *)

Definition required_topics : list string := [
  "loop_rate";
  "gnss_sub_topic";
  "imu_sub_topic";
  "lidar_sub_topic";
  "lidar_pub_topic";
  "gps_pub_topic";
  "odom_pub_topic";
  "velocity_pub_topic";
  "imu_pub_topic";
  "position_pub_topic" ].

(** The [for topic in required_topics] loop, [flag] being the loop-carried
    variable. *)
Fixpoint check_topics (config : gmap string val) (topics : list string)
    (flag : bool) : M bool :=
  match topics with
  | [] => mret flag
  | topic :: rest =>
      if negb (truthy (dict_get config topic))
      then logging "error" ("Missing configuration of " +:+ topic);;
           check_topics config rest false
      else check_topics config rest flag
  end.

Definition check_config (config : gmap string val) : M bool :=
  check_topics config required_topics true.

(** ** class VehicleInfoPublisher *)

Fixpoint for_each {A} (l : list A) (body : A -> M unit) : M unit :=
  match l with
  | [] => mret tt
  | a :: rest => body a;; for_each rest body
  end.

Module VehicleInfoPublisher.

Section Init.

  Variable rcl : request -> bool.

Definition __init__ (vehicle : val) (config : gmap string val) : M unit :=
  node_init "vehicle_info_publisher";;
  setself "vehicle" vehicle;;
  setself "config" (VDict config);;
  s ← create_subscription rcl "sensor_msgs.msg.NavSatFix"
        (dict_get config "gnss_sub_topic") "update_carla_gnss_data";
  setself "gnss_sub" s;;
  s ← create_subscription rcl "sensor_msgs.msg.Imu"
        (dict_get config "imu_sub_topic") "update_carla_imu_data";
  setself "imu_sub" s;;
  s ← create_subscription rcl "sensor_msgs.msg.PointCloud2"
        (dict_get config "lidar_sub_topic") "update_carla_lidar_data";
  setself "lidar_sub" s;;
  p ← create_publisher rcl "sensor_msgs.msg.PointCloud2"
        (dict_get config "lidar_pub_topic");
  setself "lidar_pub" p;;
  p ← create_publisher rcl "sensor_driver_msgs.msg.GpswithHeading"
        (dict_get config "gps_pub_topic");
  setself "gps_pub" p;;
  p ← create_publisher rcl "sensor_driver_msgs.msg.OdometrywithGps"
        (dict_get config "odom_pub_topic");
  setself "odom_pub" p;;
  p ← create_publisher rcl "sensor_driver_msgs.msg.InsVelocity"
        (dict_get config "velocity_pub_topic");
  setself "velocity_pub" p;;
  p ← create_publisher rcl "sensor_msgs.msg.Imu"
        (dict_get config "imu_pub_topic");
  setself "imu_pub" p;;
  p ← create_publisher rcl "geometry_msgs.msg.Vector3Stamped"
        (dict_get config "position_pub_topic");
  setself "position_pub" p;;
  t ← create_timer rcl (dict_get config "loop_rate") "publish_vehicle_data";
  setself "timer" t.

End Init.

Definition cleanup : M unit :=
  has_timer ← hasself "timer";
  (if has_timer : bool then t ← getself "timer"; cancel t else mret tt);;
  lidar_pub ← getself "lidar_pub";
  gps_pub ← getself "gps_pub";
  odom_pub ← getself "odom_pub";
  velocity_pub ← getself "velocity_pub";
  imu_pub ← getself "imu_pub";
  position_pub ← getself "position_pub";
  let publishers :=
    [lidar_pub; gps_pub; odom_pub; velocity_pub; imu_pub; position_pub] in
  for_each publishers destroy.

(** Read vehicle state info using carla interface *)
Definition update_vehicle_state_info : M unit :=
  vehicle ← getself "vehicle"; ego_velocity ← get_velocity vehicle;
  vehicle ← getself "vehicle"; ego_angular_velocity ← get_angular_velocity vehicle;
  vehicle ← getself "vehicle"; ego_transform ← get_transform vehicle;
  let ego_location := carla.location ego_transform in
  let ego_rotation := carla.rotation ego_transform in
  setself "pseudo_heading" (VRotation ego_rotation);;
  setself "pseudo_position" (carla_location_to_ros_vector3 ego_location);;
  setself "pseudo_velocity"
    (carla_velocity_to_ros_twist ego_velocity ego_angular_velocity);;
  (* self.pseudo_odom.header = self.header *)
  header ← getself "header";
  pseudo_odom ← getself "pseudo_odom";
  setattr pseudo_odom "header" header;;
  (* self.pseudo_odom.pose.pose = self.pseudo_position *)
  pseudo_position ← getself "pseudo_position";
  pseudo_odom ← getself "pseudo_odom";
  pose ← getattr pseudo_odom "pose";
  setattr pose "pose" pseudo_position;;
  (* self.pseudo_odom.twist.twist = self.pseudo_velocity *)
  pseudo_velocity ← getself "pseudo_velocity";
  pseudo_odom ← getself "pseudo_odom";
  twist ← getattr pseudo_odom "twist";
  setattr twist "twist" pseudo_velocity.

(** Callback functions *)
Definition update_carla_lidar_data (carla_lidar_data : val) : M unit :=
  (* self.header = carla_lidar_data.header *)
  header ← getattr carla_lidar_data "header";
  setself "header" header;;
  (* self.header.frame_id = "odom" *)
  header ← getself "header";
  setattr header "frame_id" (VStr "odom");;
  setself "carla_lidar_data" carla_lidar_data;;
  logging "debug" "Received lidar data".

Definition update_carla_gnss_data (carla_gnss_data : val) : M unit :=
  setself "carla_gnss_data" carla_gnss_data;;
  logging "debug" "Received gnss data".

Definition update_carla_imu_data (carla_imu_data : val) : M unit :=
  setself "carla_imu_data" carla_imu_data;;
  logging "debug" "Received imu data".

(** Prepare data to be published *)
Definition get_lidar_data : M val :=
  carla_lidar_data ← getself "carla_lidar_data";
  setself "lidar_data" carla_lidar_data;;
  getself "lidar_data".

Definition get_gps_data : M unit :=
  (* self.gps_data.header = self.carla_gnss_data.header *)
  carla_gnss_data ← getself "carla_gnss_data";
  header ← getattr carla_gnss_data "header";
  gps_data ← getself "gps_data";
  setattr gps_data "header" header;;
  (* self.gps_data.gps = self.carla_gnss_data *)
  carla_gnss_data ← getself "carla_gnss_data";
  gps_data ← getself "gps_data";
  setattr gps_data "gps" carla_gnss_data;;
  (* self.gps_data.roll = self.pseudo_heading.roll *)
  pseudo_heading ← getself "pseudo_heading";
  roll ← getattr pseudo_heading "roll";
  gps_data ← getself "gps_data";
  setattr gps_data "roll" roll;;
  (* self.gps_data.pitch = self.pseudo_heading.pitch *)
  pseudo_heading ← getself "pseudo_heading";
  pitch ← getattr pseudo_heading "pitch";
  gps_data ← getself "gps_data";
  setattr gps_data "pitch" pitch;;
  (* self.gps_data.heading = self.pseudo_heading.yaw - 90 *)
  pseudo_heading ← getself "pseudo_heading";
  yaw ← getattr pseudo_heading "yaw";
  heading ← py_sub yaw 90;
  gps_data ← getself "gps_data";
  setattr gps_data "heading" heading.

Definition get_odom_data : M unit :=
  header ← getself "header";
  odom_data ← getself "odom_data";
  setattr odom_data "header" header;;
  carla_gnss_data ← getself "carla_gnss_data";
  odom_data ← getself "odom_data";
  setattr odom_data "gps" carla_gnss_data;;
  pseudo_odom ← getself "pseudo_odom";
  odom_data ← getself "odom_data";
  setattr odom_data "odometry" pseudo_odom.

Definition get_velocity_data : M unit :=
  header ← getself "header";
  velocity_data ← getself "velocity_data";
  setattr velocity_data "header" header;;
  (* self.velocity_data.angular_velocity = self.carla_imu_data.angular_velocity *)
  carla_imu_data ← getself "carla_imu_data";
  angular_velocity ← getattr carla_imu_data "angular_velocity";
  velocity_data ← getself "velocity_data";
  setattr velocity_data "angular_velocity" angular_velocity;;
  (* self.velocity_data.linear_velocity = self.pseudo_velocity.linear *)
  pseudo_velocity ← getself "pseudo_velocity";
  linear ← getattr pseudo_velocity "linear";
  velocity_data ← getself "velocity_data";
  setattr velocity_data "linear_velocity" linear;;
  (* self.velocity_data.angular_velocity = self.pseudo_velocity.angular *)
  pseudo_velocity ← getself "pseudo_velocity";
  angular ← getattr pseudo_velocity "angular";
  velocity_data ← getself "velocity_data";
  setattr velocity_data "angular_velocity" angular.

Definition get_imu_data : M unit :=
  carla_imu_data ← getself "carla_imu_data";
  setself "imu_data" carla_imu_data.

Definition get_position_data : M unit :=
  header ← getself "header";
  position_data ← getself "position_data";
  setattr position_data "header" header;;
  pseudo_position ← getself "pseudo_position";
  position_data ← getself "position_data";
  setattr position_data "vector" pseudo_position.

Definition publish_vehicle_data : M unit :=
  update_vehicle_state_info;;
  get_lidar_data;;
  get_gps_data;;
  get_odom_data;;
  get_velocity_data;;
  get_imu_data;;
  get_position_data;;
  p ← getself "lidar_pub"; m ← getself "lidar_data"; publish p m;;
  p ← getself "gps_pub"; m ← getself "gps_data"; publish p m;;
  p ← getself "odom_pub"; m ← getself "odom_data"; publish p m;;
  p ← getself "velocity_pub"; m ← getself "velocity_data"; publish p m;;
  p ← getself "imu_pub"; m ← getself "imu_data"; publish p m;;
  p ← getself "position_pub"; m ← getself "position_data"; publish p m;;
  logging "debug" "Data published".

End VehicleInfoPublisher.

(** ** Delivery of samples *)

(** The executor hands one message at a time to the callback of its
    subscription. *)
Inductive sample :=
  | Lidar (m : val)
  | Gnss (m : val)
  | Imu (m : val).

Definition callback (s : sample) : M unit :=
  match s with
  | Lidar m => VehicleInfoPublisher.update_carla_lidar_data m
  | Gnss m => VehicleInfoPublisher.update_carla_gnss_data m
  | Imu m => VehicleInfoPublisher.update_carla_imu_data m
  end.

Definition deliver (ss : list sample) : M unit := for_each ss callback.

Definition lidar_of (s : sample) : option val :=
  match s with Lidar m => Some m | _ => None end.
Definition gnss_of (s : sample) : option val :=
  match s with Gnss m => Some m | _ => None end.
Definition imu_of (s : sample) : option val :=
  match s with Imu m => Some m | _ => None end.

(** The most recent message of one stream in a delivery, [before] when the
    stream received none. *)
Fixpoint latest (pick : sample → option val) (ss : list sample)
    (before : option val) : option val :=
  match ss with
  | [] => before
  | s :: rest =>
      latest pick rest (match pick s with Some m => Some m | None => before end)
  end.

(** ** Reading the store *)

Definition deref (h : gmap loc (gmap string val)) (v : val)
  : option (gmap string val) :=
  match v with VRef l => h !! l | _ => None end.

(** A message as a reader finds it: its own fields and the fields of its
    header. *)
Definition message (h : gmap loc (gmap string val)) (m : val)
  : option (gmap string val * option (gmap string val)) :=
  o ← deref h m; Some (o, o !! "header" ≫= deref h).

(** [m.header.stamp] *)
Definition stamp_of (h : gmap loc (gmap string val)) (m : val) : option val :=
  hd ← attr_of h m "header"; attr_of h hd "stamp".

(** [m.header.frame_id] *)
Definition frame_of (h : gmap loc (gmap string val)) (m : val) : option val :=
  hd ← attr_of h m "header"; attr_of h hd "frame_id".

Definition the (w : world) (a : string) : val := default VNone (self_attr w a).

Definition the_attr (h : gmap loc (gmap string val)) (v : val) (a : string)
  : val :=
  default VNone (attr_of h v a).

Definition handle_of (w : world) (a : string) : nat :=
  match self_attr w a with Some (VHandle h) => h | _ => 0 end.

(** ** What a publish cycle relies on *)

Definition ref_is (o : option val) (l : loc) : bool :=
  match o with Some (VRef l') => Pos.eqb l' l | _ => false end.

Definition allocated (h : gmap loc (gmap string val)) (l : loc) : bool :=
  match h !! l with Some _ => true | None => false end.

Definition is_handle (o : option val) : bool :=
  match o with Some (VHandle _) => true | _ => false end.

Definition is_actor (o : option val) : bool :=
  match o with Some (VActor _) => true | _ => false end.

Definition readable (h : gmap loc (gmap string val)) (o : option val)
    (a : string) : bool :=
  match o with
  | Some v => match attr_of h v a with Some _ => true | None => false end
  | None => false
  end.

(** The objects the class owns and the cycle writes into. *)
Definition own_objects : list loc := [12; 14; 18; 26; 28; 30; 31]%positive.

(** An object that is none of those. *)
Definition foreign (l : loc) : bool :=
  forallb (fun l' => negb (Pos.eqb l l')) own_objects.

(** The class attributes are not shadowed, their objects exist, and
    [pseudo_odom] still has its [pose] and [twist] sub-objects. *)
Definition wired (w : world) : bool :=
  ref_is (self_attr w "position_data") 12 &&
  ref_is (self_attr w "gps_data") 14 &&
  ref_is (self_attr w "odom_data") 18 &&
  ref_is (self_attr w "velocity_data") 26 &&
  ref_is (self_attr w "pseudo_odom") 28 &&
  forallb (allocated (heap w)) own_objects &&
  ref_is (attr_of (heap w) (VRef 28) "pose") 30 &&
  ref_is (attr_of (heap w) (VRef 28) "twist") 31.

Definition publishers : list string :=
  ["lidar_pub"; "gps_pub"; "odom_pub"; "velocity_pub"; "imu_pub"; "position_pub"].

(** [__init__] ran to its end: the vehicle and the six publishers are bound. *)
Definition constructed (w : world) : bool :=
  is_actor (self_attr w "vehicle") &&
  forallb (fun p => is_handle (self_attr w p)) publishers.

(** The stored GNSS sample has a header, the stored IMU sample an angular
    velocity, and the GNSS sample is a message of its own (not one of the
    objects the cycle writes into). *)
Definition fed (w : world) : bool :=
  readable (heap w) (self_attr w "carla_gnss_data") "header" &&
  readable (heap w) (self_attr w "carla_imu_data") "angular_velocity" &&
  negb (existsb (ref_is (self_attr w "carla_gnss_data")) own_objects).

(** ** The world a publish cycle leaves *)

Definition cycle_heap (w : world) : gmap loc (gmap string val) :=
  let header := the w "header" in
  let gnss := the w "carla_gnss_data" in
  let imu := the w "carla_imu_data" in
  let k := sim w in
  let r := carla.rotation (transform k) in
  let position := carla_location_to_ros_vector3 (carla.location (transform k)) in
  let twist := carla_velocity_to_ros_twist (velocity k) (angular_velocity k) in
  write 12 "vector" position
    (write 12 "header" header
    (write 26 "angular_velocity" (VVector3 (copy3 (angular_velocity k)))
    (write 26 "linear_velocity" (VVector3 (copy3 (velocity k)))
    (write 26 "angular_velocity" (the_attr (heap w) imu "angular_velocity")
    (write 26 "header" header
    (write 18 "odometry" (VRef 28)
    (write 18 "gps" gnss
    (write 18 "header" header
    (write 14 "heading" (VFloat (carla.yaw r - 90))
    (write 14 "pitch" (VFloat (carla.pitch r))
    (write 14 "roll" (VFloat (carla.roll r))
    (write 14 "gps" gnss
    (write 14 "header" (the_attr (heap w) gnss "header")
    (write 31 "twist" twist
    (write 30 "pose" position
    (write 28 "header" header (heap w))))))))))))))))).

Definition cycle_dict (w : world) : gmap string val :=
  let k := sim w in
  <["imu_data" := the w "carla_imu_data"]>
    (<["lidar_data" := the w "carla_lidar_data"]>
    (<["pseudo_velocity" :=
         carla_velocity_to_ros_twist (velocity k) (angular_velocity k)]>
    (<["pseudo_position" :=
         carla_location_to_ros_vector3 (carla.location (transform k))]>
    (<["pseudo_heading" := VRotation (carla.rotation (transform k))]>
       (self_dict w))))).

(** The six calls of [publish], in the order of the source. *)
Definition published (w : world) : list event := [
  EPublish (handle_of w "lidar_pub") (the w "carla_lidar_data");
  EPublish (handle_of w "gps_pub") (VRef 14);
  EPublish (handle_of w "odom_pub") (VRef 18);
  EPublish (handle_of w "velocity_pub") (VRef 26);
  EPublish (handle_of w "imu_pub") (the w "carla_imu_data");
  EPublish (handle_of w "position_pub") (VRef 12) ].

Definition after_cycle (w : world) : world :=
  World (cycle_heap w) (cycle_dict w) (sim w) (handles w)
    (trace w ++ published w ++ [ELog "debug" "Data published"]).

(** The six messages of one cycle, named as the specification names them. *)
Record outputs := {
  PointCloud : val;
  GpsWithHeading : val;
  OdometryWithGps : val;
  Velocity : val;
  ImuOut : val;
  Position : val }.

(** [cycle w w' o]: started in [w], one call of [publish_vehicle_data]
    returns normally, leaves [w'], and has handed [o] to the six
    publishers, each message to the publisher of its topic. *)
Definition cycle (w w' : world) (o : outputs) : Prop :=
  VehicleInfoPublisher.publish_vehicle_data w = (Return tt, w') ∧
  trace w' = trace w ++ [
    EPublish (handle_of w "lidar_pub") (PointCloud o);
    EPublish (handle_of w "gps_pub") (GpsWithHeading o);
    EPublish (handle_of w "odom_pub") (OdometryWithGps o);
    EPublish (handle_of w "velocity_pub") (Velocity o);
    EPublish (handle_of w "imu_pub") (ImuOut o);
    EPublish (handle_of w "position_pub") (Position o);
    ELog "debug" "Data published" ].

Definition outputs_of (w : world) : outputs := {|
  PointCloud := the w "carla_lidar_data";
  GpsWithHeading := VRef 14;
  OdometryWithGps := VRef 18;
  Velocity := VRef 26;
  ImuOut := the w "carla_imu_data";
  Position := VRef 12 |}.

(** The LiDAR sample in store is a message of its own and the header the
    node shares is the header object of that sample: what the LiDAR callback
    leaves behind. *)
Definition linked (w : world) : bool :=
  match self_attr w "header",
        attr_of (heap w) (the w "carla_lidar_data") "header" with
  | Some (VRef a), Some (VRef b) => Pos.eqb a b
  | _, _ => false
  end &&
  negb (existsb (ref_is (self_attr w "carla_lidar_data")) own_objects).

(** The world the LiDAR callback leaves for a sample whose header is the
    object [l]. *)
Definition after_lidar (w : world) (m : val) (l : loc) : world :=
  World (write l "frame_id" (VStr "odom") (heap w))
    (<["carla_lidar_data" := m]> (<["header" := VRef l]> (self_dict w)))
    (sim w) (handles w) (trace w ++ [ELog "debug" "Received lidar data"]).

(** ** What cleanup asks of rclpy *)

Definition timer_state (w : world) : bool :=
  match self_attr w "timer" with
  | None | Some (VHandle _) => true
  | Some _ => false
  end.

Definition cleanup_events (w : world) : list event :=
  match self_attr w "timer" with
  | Some (VHandle t) => [ECancel t]
  | _ => []
  end ++ map (fun p => EDestroy (handle_of w p)) publishers.

Definition is_create_subscription (e : event) : bool :=
  match e with ECreate _ (RSubscription _ _ _) => true | _ => false end.

(** ** What check_config and the constructor leave *)

Definition present (config : gmap string val) (topic : string) : bool :=
  truthy (dict_get config topic).

Definition missing_logs (config : gmap string val) (topics : list string)
  : list event :=
  map (fun topic => ELog "error" ("Missing configuration of " +:+ topic))
    (filter (fun topic => present config topic = false) topics).

(** The ten requests of the constructor, in the order of the source. *)
Definition requests (config : gmap string val) : list request := [
  RSubscription "sensor_msgs.msg.NavSatFix"
    (dict_get config "gnss_sub_topic") "update_carla_gnss_data";
  RSubscription "sensor_msgs.msg.Imu"
    (dict_get config "imu_sub_topic") "update_carla_imu_data";
  RSubscription "sensor_msgs.msg.PointCloud2"
    (dict_get config "lidar_sub_topic") "update_carla_lidar_data";
  RPublisher "sensor_msgs.msg.PointCloud2" (dict_get config "lidar_pub_topic");
  RPublisher "sensor_driver_msgs.msg.GpswithHeading"
    (dict_get config "gps_pub_topic");
  RPublisher "sensor_driver_msgs.msg.OdometrywithGps"
    (dict_get config "odom_pub_topic");
  RPublisher "sensor_driver_msgs.msg.InsVelocity"
    (dict_get config "velocity_pub_topic");
  RPublisher "sensor_msgs.msg.Imu" (dict_get config "imu_pub_topic");
  RPublisher "geometry_msgs.msg.Vector3Stamped"
    (dict_get config "position_pub_topic");
  RTimer (dict_get config "loop_rate") "publish_vehicle_data" ].

Definition entities : list string := [
  "gnss_sub"; "imu_sub"; "lidar_sub"; "lidar_pub"; "gps_pub"; "odom_pub";
  "velocity_pub"; "imu_pub"; "position_pub"; "timer" ].

(** Handles [n], [n+1], ... for the requests, bound to the attributes. *)
Fixpoint bind_entities (names : list string) (n : nat) (d : gmap string val)
  : gmap string val :=
  match names with
  | [] => d
  | a :: rest => bind_entities rest (S n) (<[a := VHandle n]> d)
  end.

Fixpoint created (rs : list request) (n : nat) : list event :=
  match rs with
  | [] => []
  | r :: rest => ECreate n r :: created rest (S n)
  end.

Definition after_init (vehicle : val) (config : gmap string val) (w : world)
  : world :=
  World (heap w)
    (bind_entities entities (handles w)
       (<["config" := VDict config]> (<["vehicle" := vehicle]> (self_dict w))))
    (sim w) (10 + handles w)
    (trace w ++ ENode "vehicle_info_publisher"
       :: created (requests config) (handles w)).

(** ** Worlds to run the node in *)

Definition accept_all : request → bool := fun _ => true.

(** An rclpy that wants a string for a topic and a positive period. *)
Definition strict : request → bool := fun r =>
  match r with
  | RSubscription _ (VStr _) _ => true
  | RPublisher _ (VStr _) => true
  | RTimer (VFloat f) _ => (0 <? f)%float
  | RTimer (VInt n) _ => (0 <? n)%Z
  | _ => false
  end.

Definition config_ok : gmap string val :=
  list_to_map [
    ("loop_rate", VFloat 0.5);
    ("gnss_sub_topic", VStr "/carla/gnss");
    ("imu_sub_topic", VStr "/carla/imu");
    ("lidar_sub_topic", VStr "/carla/lidar");
    ("lidar_pub_topic", VStr "/lidar");
    ("gps_pub_topic", VStr "/gps");
    ("odom_pub_topic", VStr "/odom");
    ("velocity_pub_topic", VStr "/velocity");
    ("imu_pub_topic", VStr "/imu");
    ("position_pub_topic", VStr "/position") ].

(** A configuration whose period is negative. *)
Definition config_negative : gmap string val :=
  <["loop_rate" := VFloat (-1)]> config_ok.

(** A configuration without the LiDAR output topic. *)
Definition config_partial : gmap string val :=
  delete "lidar_pub_topic" config_ok.

(** The node after a complete construction. *)
Definition node : world :=
  (VehicleInfoPublisher.__init__ accept_all (VActor 1) config_ok boot).2.

Definition put (l : loc) (o : gmap string val) (w : world) : world :=
  set_heap (<[l := o]> (heap w)) w.

Definition stamped (sec : Z) (frame_id : string) : gmap string val :=
  list_to_map [("stamp", VTime sec 0); ("frame_id", VStr frame_id)].

(** A LiDAR sample (object 100, header 101), a GNSS fix (102, header 103)
    and an IMU reading (104, header 105) as the executor would hand them
    over, each with its own header. *)
Definition lidar_sample : gmap string val :=
  <["data" := VBytes [Byte.x01; Byte.x02; Byte.x03]]> (msg.PointCloud2 101).

Definition gnss_sample : gmap string val :=
  <["latitude" := VFloat 1]> (<["longitude" := VFloat 2]>
    (<["altitude" := VFloat 3]> (msg.NavSatFix 103))).

Definition imu_sample : gmap string val :=
  <["angular_velocity" := VVector3 (geometry_msgs.Build_Vector3 0 0 1)]>
    (msg.Imu 105).

Definition arrivals (w : world) : world :=
  put 100 lidar_sample (put 101 (stamped 7 "velodyne")
    (put 102 gnss_sample (put 103 (stamped 5 "gnss")
      (put 104 imu_sample (put 105 (stamped 6 "imu") w))))).

(** The node and an object without any field, as a malformed sample. *)
Definition bare : world := put 200 ∅ node.

(** The kinematics of the end-to-end scenario of the specification. *)
Definition moving : Kinematics := {|
  velocity := carla.Build_Vector3D 1 0 0;
  angular_velocity := carla.Build_Vector3D 0 0 0.5;
  transform := carla.Build_Transform (carla.Build_Vector3D 10 20 30)
                 (carla.Build_Rotation 0 90 0) |}.

Definition three_samples : list sample :=
  [Gnss (VRef 102); Imu (VRef 104); Lidar (VRef 100)].

(** The node with the three samples delivered and the vehicle moving. *)
Definition driving : world :=
  set_sim moving (deliver three_samples (arrivals node)).2.

(** ** More about construction *)

(** What a request hands to rclpy besides the message type: the topic, or
    the period. *)
Definition request_arg (r : request) : val :=
  match r with
  | RSubscription _ topic _ => topic
  | RPublisher _ topic => topic
  | RTimer period _ => period
  end.

(** The node after the first [k] requests of the constructor were granted. *)
Definition init_upto (k : nat) (vehicle : val) (config : gmap string val)
    (w : world) : world :=
  World (heap w)
    (bind_entities (take k entities) (handles w)
       (<["config" := VDict config]> (<["vehicle" := vehicle]> (self_dict w))))
    (sim w) (k + handles w)
    (trace w ++ ENode "vehicle_info_publisher"
       :: created (take k (requests config)) (handles w)).

(** The first request rclpy refuses, with its position. *)
Definition first_refused (rcl : request → bool) (rs : list request)
  : option (nat * request) :=
  list_find (fun r => rcl r = false) rs.

(** A node whose construction an rclpy that wants string topics stopped at
    the LiDAR publisher. *)
Definition stalled : world :=
  (VehicleInfoPublisher.__init__ strict (VActor 1) config_partial boot).2.

(** ** More about the publish cycle *)

(** The fields a publish cycle assigns, on whichever object. *)
Definition cycle_fields : list string := [
  "header"; "gps"; "roll"; "pitch"; "heading"; "odometry";
  "angular_velocity"; "linear_velocity"; "vector"; "pose"; "twist" ].

(** The attributes of the node a publish cycle rebinds. *)
Definition cycle_attributes : list string := [
  "imu_data"; "lidar_data"; "pseudo_velocity"; "pseudo_position";
  "pseudo_heading" ].


(** The node with the object without any field stored as its GNSS sample,
    and as its IMU sample. *)
Definition gnss_unreadable : world := (deliver [Gnss (VRef 200)] bare).2.
Definition imu_unreadable : world := (deliver [Imu (VRef 200)] bare).2.

(** ** More about the callbacks *)

(** A value of a built-in type, which takes no new attribute: [None], a
    bool, a number, a string, bytes, a list, a dict. *)
Definition builtin (v : val) : bool :=
  match v with
  | VNone | VBool _ | VInt _ | VFloat _ | VStr _ | VBytes _ | VList _
  | VDict _ => true
  | _ => false
  end.

(** The node and a sample whose header is [None]. *)
Definition headless : world := put 200 {["header" := VNone]} node.

(** ** The timer *)

(** [n] firings of the timer, one call of its callback each, with nothing
    delivered in between. *)
Fixpoint firings (n : nat) : M unit :=
  match n with
  | 0 => mret tt
  | S n => VehicleInfoPublisher.publish_vehicle_data;; firings n
  end.

Set Warnings "-inexact-float".

(** * main.py: the keyboard controller

    [KeyboardControl] of [src/main.py] turns the keyboard into a
    [carla.VehicleControl], once per frame.  pygame and carla are outside
    the repository.  Of pygame the controller reads the event queue, the
    keys held down and the clock: they are the arguments of a frame here.
    What it asks of [sim_env] and of its vehicle is recorded as a call and
    taken to return.  [steer_cache] is a plain Python attribute and holds
    the [int] 0 or a [float], as the statements assign it. *)

Module pygame.

(** The keys the controller looks at, and any other key. *)
Inductive key :=
  | K_UP | K_DOWN | K_LEFT | K_RIGHT | K_SPACE
  | K_a | K_d | K_q | K_r | K_s | K_w
  | K_other (code : Z).

(** An event of the queue, by its [type]: [QUIT], [KEYUP] with its [key],
    or any other type. *)
Inductive Event :=
  | QUIT
  | KEYUP (key : key)
  | OTHER (type : Z).

End pygame.

(** A Python number: an [int] or a [float]. *)
Inductive num :=
  | Int (n : Z)
  | Float (f : float).

(** [n] against [f], exactly, as Python compares an [int] with a [float];
    nothing compares with a NaN. *)
Definition int_compare_float (n : Z) (f : float) : option comparison :=
  match FloatOps.Prim2SF f with
  | SpecFloat.S754_nan => None
  | SpecFloat.S754_infinity negative => Some (if negative then Gt else Lt)
  | SpecFloat.S754_zero _ => Some (n ?= 0)%Z
  | SpecFloat.S754_finite negative m e =>
      let v := if negative then Zneg m else Zpos m in
      Some (if (0 <=? e)%Z then (n ?= v * 2 ^ e)%Z
            else (n * 2 ^ (- e) ?= v)%Z)
  end.

(** [a < b] and [a <= b]; [a > b] is [b < a]. *)
Definition num_lt (a b : num) : bool :=
  match a, b with
  | Int n, Int m => (n <? m)%Z
  | Float f, Float g => (f <? g)%float
  | Int n, Float g =>
      match int_compare_float n g with Some Lt => true | _ => false end
  | Float f, Int m =>
      match int_compare_float m f with Some Gt => true | _ => false end
  end.

Definition num_le (a b : num) : bool :=
  match a, b with
  | Int n, Int m => (n <=? m)%Z
  | Float f, Float g => (f <=? g)%float
  | Int n, Float g =>
      match int_compare_float n g with
      | Some Lt | Some Eq => true
      | _ => false
      end
  | Float f, Int m =>
      match int_compare_float m f with
      | Some Gt | Some Eq => true
      | _ => false
      end
  end.

Definition num_gt (a b : num) : bool := num_lt b a.

(** [min(a, b)] and [max(a, b)]: the first argument, unless the second is
    strictly smaller (greater). *)
Definition py_min (a b : num) : num := if num_lt b a then b else a.
Definition py_max (a b : num) : num := if num_gt b a then b else a.

(** [float(a)], as an arithmetic operation with a [float] converts an
    [int] operand. *)
Definition to_float (a : num) : float :=
  match a with Int n => float_of_int n | Float f => f end.

(** [carla.VehicleControl] *)
Record VehicleControl := {
  throttle : float;
  steer : float;
  brake : float;
  hand_brake : bool;
  reverse : bool;
  manual_gear_shift : bool;
  gear : Z }.

(** The two members of [carla.VehicleLightState] that the controller
    switches, and [NONE]: bit flags of the CARLA API. *)
Module VehicleLightState.
Definition NONE : Z := 0.
Definition Brake : Z := 8.
Definition Reverse : Z := 64.
End VehicleLightState.

(** The attributes of a [KeyboardControl]. *)
Record controller := {
  reverse_gear : Z;
  control : VehicleControl;
  lights : Z;
  steer_cache : num }.

(** What the controller asks of its collaborators.  [Destroy] and
    [Restart] are [sim_env.destroy()] and [sim_env.restart()]: in
    [src/main.py] they destroy the sensors and the vehicle and spawn new
    ones.  They are not embedded: each is recorded as one call and taken to
    return, and what it asks of carla in turn is not part of the record. *)
Inductive call :=
  | Debug (msg : string)                     (* logging.debug(msg) *)
  | Destroy                                  (* sim_env.destroy() *)
  | Restart                                  (* sim_env.restart() *)
  | SetLightState (lights : Z)               (* sim_env.vehicle.set_light_state *)
  | ApplyControl (c : VehicleControl).       (* sim_env.vehicle.apply_control *)

Record cockpit := Cockpit {
  keyboard : controller;
  calls : list call }.

(** A statement of the controller. *)
Definition K (A : Type) : Type := cockpit -> A * cockpit.

#[global] Instance K_ret : MRet K := fun A a s => (a, s).
#[global] Instance K_bind : MBind K := fun A B f c s =>
  let (a, s') := c s in f a s'.

Definition ask_call (c : call) : K unit := fun '(Cockpit k cs) =>
  (tt, Cockpit k (cs ++ [c])).

Definition debug (msg : string) : K unit := ask_call (Debug msg).

Definition self : K controller := fun s => (keyboard s, s).

Definition the_control : K VehicleControl := fun s => (control (keyboard s), s).

Definition set_control (c : VehicleControl) : K unit := fun '(Cockpit k cs) =>
  let '{| reverse_gear := r; lights := l; steer_cache := v |} := k in
  (tt, Cockpit {| reverse_gear := r; control := c; lights := l;
                  steer_cache := v |} cs).

Definition set_steer_cache (v : num) : K unit := fun '(Cockpit k cs) =>
  let '{| reverse_gear := r; control := c; lights := l |} := k in
  (tt, Cockpit {| reverse_gear := r; control := c; lights := l;
                  steer_cache := v |} cs).

Module KeyboardControl.

Section Methods.

  (** A [float] assigned to a field of [carla.VehicleControl] is stored as
      a C [float]: [c_float f] is what reading the field gives back.
      [round1 f] is [round(f, 1)]. *)
  Variables c_float round1 : float -> float.

  (** [self.control.<field> = v] *)
Definition set_throttle (v : num) : K unit :=
  c ← the_control;
  let '{| steer := s; brake := b; hand_brake := h; reverse := r;
          manual_gear_shift := m; gear := g |} := c in
  set_control {| throttle := c_float (to_float v); steer := s; brake := b;
                 hand_brake := h; reverse := r; manual_gear_shift := m;
                 gear := g |}.

Definition set_steer (v : num) : K unit :=
  c ← the_control;
  let '{| throttle := t; brake := b; hand_brake := h; reverse := r;
          manual_gear_shift := m; gear := g |} := c in
  set_control {| throttle := t; steer := c_float (to_float v); brake := b;
                 hand_brake := h; reverse := r; manual_gear_shift := m;
                 gear := g |}.

Definition set_brake (v : num) : K unit :=
  c ← the_control;
  let '{| throttle := t; steer := s; hand_brake := h; reverse := r;
          manual_gear_shift := m; gear := g |} := c in
  set_control {| throttle := t; steer := s; brake := c_float (to_float v);
                 hand_brake := h; reverse := r; manual_gear_shift := m;
                 gear := g |}.

Definition set_hand_brake (v : bool) : K unit :=
  c ← the_control;
  let '{| throttle := t; steer := s; brake := b; reverse := r;
          manual_gear_shift := m; gear := g |} := c in
  set_control {| throttle := t; steer := s; brake := b; hand_brake := v;
                 reverse := r; manual_gear_shift := m; gear := g |}.

Definition set_reverse (v : bool) : K unit :=
  c ← the_control;
  let '{| throttle := t; steer := s; brake := b; hand_brake := h;
          manual_gear_shift := m; gear := g |} := c in
  set_control {| throttle := t; steer := s; brake := b; hand_brake := h;
                 reverse := v; manual_gear_shift := m; gear := g |}.

Definition set_gear (v : Z) : K unit :=
  c ← the_control;
  let '{| throttle := t; steer := s; brake := b; hand_brake := h;
          reverse := r; manual_gear_shift := m |} := c in
  set_control {| throttle := t; steer := s; brake := b; hand_brake := h;
                 reverse := r; manual_gear_shift := m; gear := v |}.

  (** [round(v, 1)]: an [int] is its own rounding. *)
Definition py_round1 (v : num) : num :=
  match v with Int n => Int n | Float f => Float (round1 f) end.

  (** [KeyboardControl(sim_env)], after the calls [before]; a new
      [carla.VehicleControl()] has the defaults of the CARLA API. *)
Definition __init__ (before : list call) : cockpit :=
  Cockpit {| reverse_gear := 1;
             control := {| throttle := 0; steer := 0; brake := 0;
                           hand_brake := false; reverse := false;
                           manual_gear_shift := false; gear := 0 |};
             lights := VehicleLightState.NONE;
             steer_cache := Float 0.0 |}
    (before ++ [SetLightState VehicleLightState.NONE]).

Definition parse_vehicle_cmd (keys : pygame.key -> bool) (milliseconds : Z)
  : K unit :=
  (if keys pygame.K_UP || keys pygame.K_w then
     debug "Throttle!";;
     c ← the_control;
     set_throttle (py_min (Float (throttle c + 0.05)%float) (Float 1.00))
   else
     set_throttle (Float 0.0));;
  (if keys pygame.K_DOWN || keys pygame.K_s then
     debug "Brake!";;
     c ← the_control;
     set_brake (py_min (Float (brake c + 0.1)%float) (Int 1))
   else
     set_brake (Int 0));;
  let steer_increment := (5e-4 * float_of_int milliseconds)%float in
  (if keys pygame.K_LEFT || keys pygame.K_a then
     debug "LEFT!";;
     k ← self;
     if num_gt (steer_cache k) (Int 0) then
       set_steer_cache (Int 0)
     else
       set_steer_cache (Float (to_float (steer_cache k) - steer_increment)%float)
   else if keys pygame.K_RIGHT || keys pygame.K_d then
     debug "RIGHT!";;
     k ← self;
     if num_lt (steer_cache k) (Int 0) then
       set_steer_cache (Int 0)
     else
       set_steer_cache (Float (to_float (steer_cache k) + steer_increment)%float)
   else
     set_steer_cache (Float 0.0));;
  k ← self;
  set_steer_cache (py_min (Float 0.7) (py_max (Float (-0.7)) (steer_cache k)));;
  k ← self;
  set_steer (py_round1 (steer_cache k));;
  set_hand_brake (keys pygame.K_SPACE).

  (** The body of the event loop for a [KEYUP] event. *)
Definition on_keyup (key : pygame.key) : K unit :=
  debug "Detected KEYUP";;
  (match key with
   | pygame.K_r => debug "R pressed!";; ask_call Destroy;; ask_call Restart
   | _ => mret tt
   end);;
  (match key with
   | pygame.K_q =>
       debug "Q pressed!";;
       c ← the_control;
       set_gear (if reverse c then 1 else -1)
   | _ => mret tt
   end).

  (** [for event in pygame.event.get(): ...]; the answer is [true] when the
      loop has met [QUIT] and the method returns from inside it. *)
Fixpoint event_loop (events : list pygame.Event) : K bool :=
  match events with
  | [] => mret false
  | pygame.QUIT :: _ => mret true
  | pygame.KEYUP key :: rest => on_keyup key;; event_loop rest
  | pygame.OTHER _ :: rest => event_loop rest
  end.

  (** [parse_events(sim_env, clock)] in a frame in which
      [pygame.event.get()] gives [events], [pygame.key.get_pressed()] gives
      [keys] and [clock.get_time()] gives [milliseconds].  It returns
      [True] or falls off its end ([None]). *)
Definition parse_events (events : list pygame.Event)
    (keys : pygame.key -> bool) (milliseconds : Z) : K val :=
  k ← self;
  let current_lights := lights k in
  returned ← event_loop events;
  if returned : bool then mret (VBool true) else
  parse_vehicle_cmd keys milliseconds;;
  c ← the_control;
  set_reverse (gear c <? 0)%Z;;
  (* Set automatic control-related vehicle lights *)
  c ← the_control;
  let current_lights :=
    if truthy (VFloat (brake c))
    then Z.lor current_lights VehicleLightState.Brake
    else Z.land current_lights (Z.lnot VehicleLightState.Brake) in
  c ← the_control;
  let current_lights :=
    if reverse c
    then Z.lor current_lights VehicleLightState.Reverse
    else Z.land current_lights (Z.lnot VehicleLightState.Reverse) in
  k ← self;
  (if negb (current_lights =? lights k)%Z
   then ask_call (SetLightState current_lights)
   else mret tt);;
  (* Apply control *)
  c ← the_control;
  ask_call (ApplyControl c);;
  mret VNone.

End Methods.

End KeyboardControl.

(** ** Frames to run the controller in *)

(** The controller as [KeyboardControl(sim_env)] leaves it. *)
Definition seated : cockpit := KeyboardControl.__init__ [].

Definition no_key : pygame.key -> bool := fun _ => false.

(** A release of Q, and a release of R. *)
Definition is_q_release (e : pygame.Event) : bool :=
  match e with pygame.KEYUP pygame.K_q => true | _ => false end.

Definition is_r_release (e : pygame.Event) : bool :=
  match e with pygame.KEYUP pygame.K_r => true | _ => false end.

(** A call on [sim_env] or on its vehicle: every call but a log record. *)
Definition on_sim_env (c : call) : bool :=
  match c with Debug _ => false | _ => true end.

(** The calls on [sim_env] that a queue of events stands for: [destroy()]
    and then [restart()] for each release of R, in the order of the
    queue. *)
Definition restarts (events : list pygame.Event) : list call :=
  flat_map (fun e => if is_r_release e then [Destroy; Restart] else []) events.

(** The numbers [float_of_int] and the arithmetic of the controller treat
    as Python does: every [float], and the [int]s below 2^63 in magnitude,
    which [float_of_int] converts to the nearest [float].  (Python converts
    every [int] so and raises OverflowError beyond the range of [float];
    [clock.get_time()] is a C [int], and the only [int] the controller
    assigns to [steer_cache] is 0.) *)
Definition convertible (n : Z) : bool := (Z.abs n <? 2 ^ 63)%Z.

Definition in_range (v : num) : bool :=
  match v with Int n => convertible n | Float _ => true end.

Definition only_s : pygame.key -> bool := fun k =>
  match k with pygame.K_s => true | _ => false end.

Definition only_left : pygame.key -> bool := fun k =>
  match k with pygame.K_LEFT => true | _ => false end.


(** * Running statements *)

Section Runs.

  Implicit Types (w : world) (h : gmap loc (gmap string val))
    (d : gmap string val) (l : loc) (a b : string) (v x : val).

Lemma bind_run {A B} (c : M A) (f : A → M B) w r w' :
  c w = (Return r, w') → (c ≫= f) w = f r w'.
Proof. intros Hc. unfold mbind, M_bind. by rewrite Hc. Qed.

Lemma bind_raise {A B} (c : M A) (f : A → M B) w e w' :
  c w = (Raise e, w') → (c ≫= f) w = (Raise e, w').
Proof. intros Hc. unfold mbind, M_bind. by rewrite Hc. Qed.

Lemma lookup_self_insert_eq d a v : lookup_self (<[a := v]> d) a = Some v.
Proof. unfold lookup_self. by rewrite lookup_insert_eq. Qed.

Lemma lookup_self_insert_ne d a b v :
  a ≠ b → lookup_self (<[a := v]> d) b = lookup_self d b.
Proof. intros. unfold lookup_self. by rewrite lookup_insert_ne. Qed.

Lemma lookup_write l l' a x h :
  write l a x h !! l' =
  if decide (l = l') then insert a x <$> h !! l else h !! l'.
Proof.
  unfold write. destruct (decide (l = l')) as [->|Hne].
  - by rewrite lookup_alter_eq.
  - by rewrite lookup_alter_ne.
Qed.

Lemma lookup_write_ne l l' a x h : l ≠ l' → write l a x h !! l' = h !! l'.
Proof. intros. by rewrite lookup_write, decide_False. Qed.

Lemma write_alloc l l' a x h :
  is_Some (h !! l') → is_Some (write l a x h !! l').
Proof.
  intros Hl. rewrite lookup_write. case_decide as E; [subst|done].
  by apply fmap_is_Some.
Qed.

Lemma attr_write_eq l a x h :
  is_Some (h !! l) → attr_of (write l a x h) (VRef l) a = Some x.
Proof.
  intros [o Ho]. cbn. rewrite lookup_write, decide_True by done.
  rewrite Ho. cbn. by rewrite lookup_insert_eq.
Qed.

Lemma attr_write_key a b l x h v :
  a ≠ b → attr_of (write l a x h) v b = attr_of h v b.
Proof.
  intros Hab. destruct v; try done. cbn.
  rewrite lookup_write. case_decide as E; [subst|done].
  destruct (h !! l0) as [o|]; cbn; [|done]. by rewrite lookup_insert_ne.
Qed.

Lemma attr_write_loc l l' a b x h :
  l ≠ l' → attr_of (write l a x h) (VRef l') b = attr_of h (VRef l') b.
Proof. intros Hl. cbn. by rewrite lookup_write, decide_False. Qed.

Lemma attr_write_other l a b x h v :
  v ≠ VRef l → attr_of (write l a x h) v b = attr_of h v b.
Proof.
  intros Hv. destruct v; try done.
  apply attr_write_loc. congruence.
Qed.

Lemma attr_alloc h l a x : attr_of h (VRef l) a = Some x → is_Some (h !! l).
Proof. cbn. destruct (h !! l); [eauto|done]. Qed.

Lemma run_getself a w v : self_attr w a = Some v → getself a w = (Return v, w).
Proof. intros Hv. unfold getself. by rewrite Hv. Qed.

Lemma run_getself_raise a w :
  self_attr w a = None → getself a w = (Raise AttributeError, w).
Proof. intros Hv. unfold getself. by rewrite Hv. Qed.

Lemma run_getattr v a w x :
  attr_of (heap w) v a = Some x → getattr v a w = (Return x, w).
Proof. intros Hx. unfold getattr. by rewrite Hx. Qed.

Lemma run_getattr_raise v a w :
  attr_of (heap w) v a = None → getattr v a w = (Raise AttributeError, w).
Proof. intros Hx. unfold getattr. by rewrite Hx. Qed.

Lemma run_setattr l a x w :
  is_Some (heap w !! l) →
  setattr (VRef l) a x w = (Return tt, set_heap (write l a x (heap w)) w).
Proof. intros [o Ho]. unfold setattr. by rewrite Ho. Qed.

Lemma run_setself a v w :
  setself a v w = (Return tt, set_self_dict (<[a := v]> (self_dict w)) w).
Proof. done. Qed.

End Runs.

(** One statement forward.  The side condition of a read is closed from
    the context after the store and the dictionaries are put in normal form. *)
Ltac norm_world :=
  unfold set_heap, set_self_dict, set_sim, emit, new_handle, self_attr;
  cbn [heap self_dict sim handles trace fst snd].

Ltac solve_read :=
  norm_world;
  repeat first
    [ rewrite lookup_self_insert_eq
    | rewrite lookup_self_insert_ne by done
    | rewrite attr_write_key by done
    | rewrite attr_write_loc by done
    | rewrite attr_write_other by assumption
    | rewrite attr_write_eq by (repeat apply write_alloc; eassumption) ];
  first [ eassumption | reflexivity | (repeat apply write_alloc; eassumption) ].

Ltac solve_run :=
  first
    [ apply run_setself
    | apply run_getself; solve_read
    | apply run_getattr; solve_read
    | apply run_setattr; solve_read
    | eassumption
    | reflexivity ].

Ltac step :=
  norm_world;
  lazymatch goal with
  | |- (?c ≫= ?f) ?w = _ => erewrite (bind_run c f w) by solve_run
  | |- ?c ?w = _ => solve_run
  end; norm_world.

Ltac run := repeat step.

Section Methods.

  Import VehicleInfoPublisher.
  Implicit Types (w : world) (h : gmap loc (gmap string val))
    (d : gmap string val) (k : Kinematics) (n : nat) (t : list event).

Lemma run_update_vehicle_state_info h d k n t id hd :
  lookup_self d "vehicle" = Some (VActor id) →
  lookup_self d "header" = Some hd →
  lookup_self d "pseudo_odom" = Some (VRef 28) →
  attr_of h (VRef 28) "pose" = Some (VRef 30) →
  attr_of h (VRef 28) "twist" = Some (VRef 31) →
  is_Some (h !! 30%positive) →
  is_Some (h !! 31%positive) →
  update_vehicle_state_info (World h d k n t) =
  (Return tt,
   World
     (write 31 "twist"
        (carla_velocity_to_ros_twist (velocity k) (angular_velocity k))
        (write 30 "pose"
           (carla_location_to_ros_vector3 (carla.location (transform k)))
           (write 28 "header" hd h)))
     (<["pseudo_velocity" :=
          carla_velocity_to_ros_twist (velocity k) (angular_velocity k)]>
        (<["pseudo_position" :=
             carla_location_to_ros_vector3 (carla.location (transform k))]>
           (<["pseudo_heading" := VRotation (carla.rotation (transform k))]> d)))
     k n t).
Proof.
  intros Hv Hh Hpo Hpose Htwist H30 H31.
  assert (is_Some (h !! 28%positive)) by (eapply attr_alloc; eassumption).
  unfold update_vehicle_state_info, get_velocity, get_angular_velocity,
    get_transform.
  run.
Qed.

Lemma run_update_carla_lidar_data h d k n t m l :
  attr_of h m "header" = Some (VRef l) →
  is_Some (h !! l) →
  update_carla_lidar_data m (World h d k n t) =
  (Return tt,
   World (write l "frame_id" (VStr "odom") h)
     (<["carla_lidar_data" := m]> (<["header" := VRef l]> d))
     k n (t ++ [ELog "debug" "Received lidar data"])).
Proof. intros Hm Hl. unfold update_carla_lidar_data. run. Qed.

Lemma run_get_lidar_data h d k n t m :
  lookup_self d "carla_lidar_data" = Some m →
  get_lidar_data (World h d k n t) =
  (Return m, World h (<["lidar_data" := m]> d) k n t).
Proof. intros Hm. unfold get_lidar_data. run. Qed.

Lemma run_get_gps_data h d k n t g gh r :
  lookup_self d "carla_gnss_data" = Some g →
  attr_of h g "header" = Some gh →
  lookup_self d "gps_data" = Some (VRef 14) →
  is_Some (h !! 14%positive) →
  lookup_self d "pseudo_heading" = Some (VRotation r) →
  get_gps_data (World h d k n t) =
  (Return tt,
   World (write 14 "heading" (VFloat (carla.yaw r - 90))
           (write 14 "pitch" (VFloat (carla.pitch r))
             (write 14 "roll" (VFloat (carla.roll r))
               (write 14 "gps" g (write 14 "header" gh h))))) d k n t).
Proof. intros Hg Hh Hd Ha Hr. unfold get_gps_data. run. Qed.

Lemma run_get_odom_data h d k n t hd g po :
  lookup_self d "header" = Some hd →
  lookup_self d "carla_gnss_data" = Some g →
  lookup_self d "pseudo_odom" = Some po →
  lookup_self d "odom_data" = Some (VRef 18) →
  is_Some (h !! 18%positive) →
  get_odom_data (World h d k n t) =
  (Return tt,
   World (write 18 "odometry" po (write 18 "gps" g (write 18 "header" hd h)))
     d k n t).
Proof. intros Hh Hg Hpo Hd Ha. unfold get_odom_data. run. Qed.

Lemma run_get_velocity_data h d k n t hd i av tw :
  lookup_self d "header" = Some hd →
  lookup_self d "carla_imu_data" = Some i →
  attr_of h i "angular_velocity" = Some av →
  lookup_self d "pseudo_velocity" = Some (VTwist tw) →
  lookup_self d "velocity_data" = Some (VRef 26) →
  is_Some (h !! 26%positive) →
  get_velocity_data (World h d k n t) =
  (Return tt,
   World
     (write 26 "angular_velocity" (VVector3 (geometry_msgs.angular tw))
        (write 26 "linear_velocity" (VVector3 (geometry_msgs.linear tw))
           (write 26 "angular_velocity" av (write 26 "header" hd h))))
     d k n t).
Proof. intros Hh Hi Hav Htw Hd Ha. unfold get_velocity_data. run. Qed.

Lemma run_get_imu_data h d k n t i :
  lookup_self d "carla_imu_data" = Some i →
  get_imu_data (World h d k n t) =
  (Return tt, World h (<["imu_data" := i]> d) k n t).
Proof. intros Hi. unfold get_imu_data. run. Qed.

Lemma run_get_position_data h d k n t hd p :
  lookup_self d "header" = Some hd →
  lookup_self d "pseudo_position" = Some p →
  lookup_self d "position_data" = Some (VRef 12) →
  is_Some (h !! 12%positive) →
  get_position_data (World h d k n t) =
  (Return tt,
   World (write 12 "vector" p (write 12 "header" hd h)) d k n t).
Proof. intros Hh Hp Hd Ha. unfold get_position_data. run. Qed.

Lemma run_publish h d k n t p m :
  publish (VHandle p) m (World h d k n t) =
  (Return tt, World h d k n (t ++ [EPublish p m])).
Proof. done. Qed.

Lemma ref_is_true o l : ref_is o l = true → o = Some (VRef l).
Proof.
  destruct o as [[]|]; cbn; try done.
  intros E. apply Pos.eqb_eq in E. by subst.
Qed.

Lemma ref_is_false (v : val) l : ref_is (Some v) l = false → v ≠ VRef l.
Proof. intros E ->. cbn in E. by rewrite Pos.eqb_refl in E. Qed.

Lemma allocated_true h l : allocated h l = true → is_Some (h !! l).
Proof. unfold allocated. destruct (h !! l); [eauto|done]. Qed.

Lemma is_handle_true o : is_handle o = true → ∃ p, o = Some (VHandle p).
Proof. destruct o as [[]|]; cbn; try done. eauto. Qed.

Lemma is_actor_true o : is_actor o = true → ∃ id, o = Some (VActor id).
Proof. destruct o as [[]|]; cbn; try done. eauto. Qed.

Lemma readable_true h o a :
  readable h o a = true → ∃ v x, o = Some v ∧ attr_of h v a = Some x.
Proof.
  unfold readable. destruct o as [v|]; [|done].
  destruct (attr_of h v a) eqn:E; [eauto|done].
Qed.

Lemma lookup_self_class d a v :
  class_dict !! a = Some v → is_Some (lookup_self d a).
Proof. intros Hc. unfold lookup_self. destruct (d !! a); eauto. Qed.

End Methods.

Ltac bools :=
  repeat match goal with
  | H : _ && _ = true |- _ => apply andb_prop in H; destruct H
  | H : negb _ = true |- _ => apply negb_true_iff in H
  | H : _ || _ = false |- _ => apply orb_false_elim in H; destruct H
  | H : ?o = Some _, H' : ref_is ?o _ = false |- _ => rewrite H in H'
  | H : ref_is _ _ = true |- _ => apply ref_is_true in H
  | H : ref_is (Some _) _ = false |- _ => apply ref_is_false in H
  | H : allocated _ _ = true |- _ => apply allocated_true in H
  | H : is_handle _ = true |- _ => apply is_handle_true in H; destruct H
  | H : is_actor _ = true |- _ => apply is_actor_true in H; destruct H
  | H : readable _ _ _ = true |- _ =>
      apply readable_true in H; destruct H as (? & ? & ? & ?)
  end.

Ltac call L :=
  norm_world;
  lazymatch goal with
  | |- (?c ≫= ?f) ?w = _ =>
      erewrite (bind_run c f w) by (eapply L; try solve_read)
  end; norm_world.

Section Cycle.

  Import VehicleInfoPublisher.

Lemma run_publish_vehicle_data w :
  wired w = true → constructed w = true → fed w = true →
  publish_vehicle_data w = (Return tt, after_cycle w).
Proof.
  destruct w as [h d k n t].
  unfold wired, constructed, fed, own_objects, publishers, after_cycle,
    published, cycle_heap, cycle_dict, handle_of, the, the_attr.
  intros Hw Hc Hf.
  cbn [forallb existsb] in *. unfold self_attr in *.
  cbn [heap self_dict sim handles trace] in *. bools.
  destruct (lookup_self_class d "header" _ eq_refl) as [hd Hhd].
  destruct (lookup_self_class d "carla_lidar_data" _ eq_refl) as [m Hm].
  repeat match goal with H : lookup_self _ _ = Some _ |- _ => rewrite H end.
  cbn [default from_option id].
  repeat match goal with H : attr_of _ _ _ = Some _ |- _ => rewrite H end.
  cbn [default from_option id].
  unfold publish_vehicle_data.
  call run_update_vehicle_state_info.
  call run_get_lidar_data.
  call run_get_gps_data.
  call run_get_odom_data.
  call run_get_velocity_data.
  call run_get_imu_data.
  call run_get_position_data.
  run.
  unfold logging. norm_world. do 2 f_equal.
  by rewrite <- !app_assoc.
Qed.

Lemma cycle_runs w :
  wired w = true → constructed w = true → fed w = true →
  cycle w (after_cycle w) (outputs_of w).
Proof.
  intros Hw Hc Hf. split; [by apply run_publish_vehicle_data|done].
Qed.

End Cycle.

(** Reading the store a cycle leaves. *)
Ltac alloc := repeat apply write_alloc; assumption.

(** Conjunctions only: an equation between closed worlds is left for
    [vm_compute]. *)
Ltac splits := repeat match goal with |- _ ∧ _ => split end.

Ltac read_store :=
  repeat first
    [ rewrite attr_write_eq by alloc
    | rewrite attr_write_key by done
    | rewrite attr_write_loc by done
    | rewrite attr_write_other by assumption ].

Ltac open_world w :=
  destruct w as [h d k n t];
  unfold wired, constructed, fed, linked, own_objects, publishers, the,
    the_attr in *;
  cbn [forallb existsb] in *; unfold self_attr in *;
  cbn [heap self_dict sim handles trace] in *; bools.

(** What the store holds after a cycle, field by field. *)
Section AfterCycle.

  Variable w : world.
  Hypothesis Hw : wired w = true.

Lemma gps_header :
  attr_of (cycle_heap w) (VRef 14) "header"
  = Some (the_attr (heap w) (the w "carla_gnss_data") "header").
Proof. open_world w. unfold cycle_heap. by read_store. Qed.




Lemma gps_heading :
  attr_of (cycle_heap w) (VRef 14) "heading"
  = Some (VFloat (carla.yaw (carla.rotation (transform (sim w))) - 90)).
Proof. open_world w. unfold cycle_heap. by read_store. Qed.

Lemma odom_header :
  attr_of (cycle_heap w) (VRef 18) "header" = Some (the w "header").
Proof. open_world w. unfold cycle_heap. by read_store. Qed.




Lemma pseudo_odom_pose :
  attr_of (cycle_heap w) (VRef 28) "pose" = Some (VRef 30) ∧
  attr_of (cycle_heap w) (VRef 30) "pose"
  = Some (VVector3 (copy3 (carla.location (transform (sim w))))).
Proof. open_world w. unfold cycle_heap. split; by read_store. Qed.

Lemma pseudo_odom_twist :
  attr_of (cycle_heap w) (VRef 28) "twist" = Some (VRef 31) ∧
  attr_of (cycle_heap w) (VRef 31) "twist"
  = Some (VTwist (geometry_msgs.Build_Twist (copy3 (velocity (sim w)))
                    (copy3 (angular_velocity (sim w))))).
Proof. open_world w. unfold cycle_heap. split; by read_store. Qed.

Lemma velocity_header :
  attr_of (cycle_heap w) (VRef 26) "header" = Some (the w "header").
Proof. open_world w. unfold cycle_heap. by read_store. Qed.

Lemma velocity_angular :
  attr_of (cycle_heap w) (VRef 26) "angular_velocity"
  = Some (VVector3 (copy3 (angular_velocity (sim w)))).
Proof. open_world w. unfold cycle_heap. by read_store. Qed.

Lemma velocity_linear :
  attr_of (cycle_heap w) (VRef 26) "linear_velocity"
  = Some (VVector3 (copy3 (velocity (sim w)))).
Proof. open_world w. unfold cycle_heap. by read_store. Qed.

Lemma position_header :
  attr_of (cycle_heap w) (VRef 12) "header" = Some (the w "header").
Proof. open_world w. unfold cycle_heap. by read_store. Qed.


End AfterCycle.

(** A cycle writes into the objects of the class and nowhere else. *)
Lemma cycle_heap_elsewhere w l :
  forallb (fun l' => negb (Pos.eqb l l')) own_objects = true →
  cycle_heap w !! l = heap w !! l.
Proof.
  unfold own_objects. cbn [forallb]. intros Hl. bools.
  repeat match goal with
  | H : (_ =? _)%positive = false |- _ => apply Pos.eqb_neq in H
  end.
  unfold cycle_heap. by rewrite !lookup_write_ne by done.
Qed.

Lemma cycle_heap_foreign w v a :
  existsb (ref_is (Some v)) own_objects = false →
  attr_of (cycle_heap w) v a = attr_of (heap w) v a.
Proof.
  unfold own_objects. cbn [existsb]. intros Hv. bools.
  unfold cycle_heap. by read_store.
Qed.

Lemma cycle_dict_keeps w a :
  a ≠ "imu_data" → a ≠ "lidar_data" → a ≠ "pseudo_velocity" →
  a ≠ "pseudo_position" → a ≠ "pseudo_heading" →
  self_attr (after_cycle w) a = self_attr w a.
Proof.
  intros. unfold after_cycle, self_attr, cycle_dict. cbn [self_dict].
  by rewrite !lookup_self_insert_ne.
Qed.

(** The callbacks. *)
Section Callbacks.

  Import VehicleInfoPublisher.

Lemma run_update_carla_gnss_data w m :
  update_carla_gnss_data m w =
  (Return tt,
   World (heap w) (<["carla_gnss_data" := m]> (self_dict w)) (sim w)
     (handles w) (trace w ++ [ELog "debug" "Received gnss data"])).
Proof. done. Qed.

Lemma run_update_carla_imu_data w m :
  update_carla_imu_data m w =
  (Return tt,
   World (heap w) (<["carla_imu_data" := m]> (self_dict w)) (sim w)
     (handles w) (trace w ++ [ELog "debug" "Received imu data"])).
Proof. done. Qed.

Lemma run_lidar w m l :
  attr_of (heap w) m "header" = Some (VRef l) →
  is_Some (heap w !! l) →
  update_carla_lidar_data m w = (Return tt, after_lidar w m l).
Proof. destruct w. apply run_update_carla_lidar_data. Qed.

(** A sample without a header: the first statement raises, nothing has
    been assigned yet. *)
Lemma lidar_raises_without_header w m :
  attr_of (heap w) m "header" = None →
  update_carla_lidar_data m w = (Raise AttributeError, w).
Proof.
  intros Hm. unfold update_carla_lidar_data.
  by erewrite bind_raise by (by apply run_getattr_raise).
Qed.

(** The LiDAR callback returns normally only for a sample whose header is
    an object. *)
Lemma allocated_write h l l' a x :
  allocated (write l a x h) l' = allocated h l'.
Proof.
  unfold allocated. rewrite lookup_write. case_decide; [subst|done].
  by destruct (h !! l').
Qed.

Lemma attr_write_some h v b l a x :
  is_Some (attr_of h v b) → is_Some (attr_of (write l a x h) v b).
Proof.
  destruct (decide (a = b)) as [->|Hab]; [|by rewrite attr_write_key].
  destruct v as [| | | | | | | |l'| | | | | | |]; try done.
  destruct (decide (l = l')) as [->|Hl]; [|by rewrite attr_write_loc].
  intros [y Hy]. rewrite attr_write_eq; [done|]. by eapply attr_alloc.
Qed.

Lemma readable_write h o b l a x :
  readable h o b = true → readable (write l a x h) o b = true.
Proof.
  unfold readable. destruct o as [v|]; [|done].
  destruct (attr_of h v b) eqn:E; [|done]. intros _.
  destruct (attr_write_some h v b l a x) as [y ->]; [by rewrite E|done].
Qed.

(** The LiDAR callback keeps whatever a publish cycle relies on. *)
Lemma wired_after_lidar w m l : wired (after_lidar w m l) = wired w.
Proof.
  unfold wired, after_lidar, self_attr, own_objects.
  cbn [self_dict heap forallb].
  rewrite !lookup_self_insert_ne by done. rewrite !allocated_write.
  by rewrite !attr_write_key by done.
Qed.

Lemma constructed_after_lidar w m l :
  constructed (after_lidar w m l) = constructed w.
Proof.
  unfold constructed, after_lidar, self_attr, publishers.
  cbn [self_dict heap forallb]. by rewrite !lookup_self_insert_ne by done.
Qed.

Lemma fed_after_lidar w m l : fed (after_lidar w m l) = fed w.
Proof.
  unfold fed, readable, after_lidar, self_attr. cbn [self_dict heap].
  rewrite !lookup_self_insert_ne by done.
  destruct (lookup_self (self_dict w) "carla_gnss_data");
    destruct (lookup_self (self_dict w) "carla_imu_data");
    by rewrite ?attr_write_key by done.
Qed.

Lemma linked_after_lidar w l lm :
  attr_of (heap w) (VRef lm) "header" = Some (VRef l) →
  foreign lm = true →
  linked (after_lidar w (VRef lm) l) = true.
Proof.
  intros Hm Hlm. unfold linked, the, after_lidar, self_attr.
  cbn [self_dict heap].
  rewrite lookup_self_insert_ne, !lookup_self_insert_eq by done.
  cbn [default from_option id].
  rewrite attr_write_key, Hm, Pos.eqb_refl by done. cbn [andb].
  unfold foreign, own_objects in *. cbn [forallb existsb ref_is] in *.
  bools.
  repeat match goal with H : _ = false |- _ => rewrite H; clear H end.
  done.
Qed.

Lemma lidar_returns w m w' :
  update_carla_lidar_data m w = (Return tt, w') →
  ∃ l, attr_of (heap w) m "header" = Some (VRef l) ∧
       is_Some (heap w !! l) ∧ w' = after_lidar w m l.
Proof.
  destruct (attr_of (heap w) m "header") as [hd|] eqn:Hm.
  2:{ by rewrite lidar_raises_without_header. }
  destruct w as [h d k n t]. cbn [heap] in *. intros Hrun.
  destruct hd as [| | | | | | | |l| | | | | | |];
    try (unfold update_carla_lidar_data in Hrun;
         erewrite (bind_run (getattr _ _)) in Hrun
           by (apply run_getattr; eassumption);
         erewrite (bind_run (setself _ _)) in Hrun by apply run_setself;
         erewrite (bind_run (getself _)) in Hrun
           by (apply run_getself; solve_read);
         discriminate Hrun).
  destruct (h !! l) as [o|] eqn:Hl.
  - exists l. split; [done|]. split; [by rewrite Hl|].
    rewrite (run_lidar _ m l) in Hrun; [congruence|done|by cbn; rewrite Hl].
  - unfold update_carla_lidar_data in Hrun.
    erewrite (bind_run (getattr _ _)) in Hrun
      by (apply run_getattr; eassumption).
    erewrite (bind_run (setself _ _)) in Hrun by apply run_setself.
    erewrite (bind_run (getself _)) in Hrun
      by (apply run_getself; solve_read).
    unfold mbind, M_bind, setattr in Hrun. norm_world.
    cbn [heap set_self_dict] in Hrun. by rewrite Hl in Hrun.
Qed.

End Callbacks.

(** A cycle keeps what the next cycle relies on. *)
Lemma wired_after_cycle w : wired w = true → wired (after_cycle w) = true.
Proof.
  intros Hw. pose proof (pseudo_odom_pose w Hw) as [Hp _].
  pose proof (pseudo_odom_twist w Hw) as [Ht _].
  unfold wired in *. rewrite !cycle_dict_keeps by done.
  cbn [after_cycle heap]. rewrite Hp, Ht.
  unfold own_objects in *. cbn [forallb] in *. unfold cycle_heap.
  rewrite !allocated_write. bools.
  repeat match goal with H : _ = Some _ |- _ => rewrite H; clear H end.
  unfold allocated.
  repeat match goal with H : is_Some _ |- _ => destruct H as [? ->] end.
  done.
Qed.

Lemma constructed_after_cycle w : constructed (after_cycle w) = constructed w.
Proof.
  unfold constructed, publishers. cbn [forallb].
  by rewrite !cycle_dict_keeps by done.
Qed.

Lemma fed_after_cycle w : fed w = true → fed (after_cycle w) = true.
Proof.
  unfold fed. rewrite !cycle_dict_keeps by done. cbn [after_cycle heap].
  intros Hf. apply andb_prop in Hf as [Hf Hforeign].
  apply andb_prop in Hf as [Hg Hi]. rewrite Hforeign, andb_true_r.
  apply andb_true_intro. split; unfold cycle_heap;
    repeat apply readable_write; done.
Qed.

(** What the cycle relies on holds from the start: the class body
    establishes it, the constructor and the callbacks keep it. *)
Section FromTheStart.

  Import VehicleInfoPublisher.

Lemma ready_at_boot : wired boot = true ∧ fed boot = true.
Proof. split; vm_compute; reflexivity. Qed.

Lemma ready_after_init id config w :
  wired (after_init (VActor id) config w) = wired w ∧
  constructed (after_init (VActor id) config w) = true ∧
  fed (after_init (VActor id) config w) = fed w.
Proof.
  unfold wired, constructed, fed, after_init, self_attr, publishers, entities.
  cbn [self_dict heap bind_entities forallb].
  repeat (rewrite lookup_self_insert_eq
          || rewrite lookup_self_insert_ne by done).
  done.
Qed.

Lemma ready_after_gnss w m w' :
  update_carla_gnss_data m w = (Return tt, w') →
  wired w' = wired w ∧ constructed w' = constructed w.
Proof.
  rewrite run_update_carla_gnss_data. intros [= <-].
  unfold wired, constructed, self_attr, publishers.
  cbn [self_dict heap forallb]. by rewrite !lookup_self_insert_ne by done.
Qed.

Lemma ready_after_imu w m w' :
  update_carla_imu_data m w = (Return tt, w') →
  wired w' = wired w ∧ constructed w' = constructed w.
Proof.
  rewrite run_update_carla_imu_data. intros [= <-].
  unfold wired, constructed, self_attr, publishers.
  cbn [self_dict heap forallb]. by rewrite !lookup_self_insert_ne by done.
Qed.

End FromTheStart.

(** * The claims *)

Section Claims.

  Import VehicleInfoPublisher.

(** C5.  In every publish cycle the Velocity output's angular velocity is
    the angular velocity polled from the vehicle (the second assignment to
    that field is the one that stays; what the IMU sample held is
    overwritten), and its linear velocity is the polled linear velocity. *)
Theorem velocity_output_is_polled_kinematics w :
  wired w = true → constructed w = true → fed w = true →
  ∃ w' o, cycle w w' o ∧
    attr_of (heap w') (Velocity o) "angular_velocity"
      = Some (VVector3 (copy3 (angular_velocity (sim w)))) ∧
    attr_of (heap w') (Velocity o) "linear_velocity"
      = Some (VVector3 (copy3 (velocity (sim w)))).
Proof.
  intros Hw Hc Hf. exists (after_cycle w), (outputs_of w).
  split; [by apply cycle_runs|].
  cbn [after_cycle outputs_of Velocity heap].
  by rewrite velocity_angular, velocity_linear.
Qed.

Lemma velocity_output_is_polled_kinematics_witness :
  ∃ w' o, cycle driving w' o ∧
    attr_of (heap w') (Velocity o) "angular_velocity"
      = Some (VVector3 (geometry_msgs.Build_Vector3 0 0 0.5)) ∧
    attr_of (heap w') (Velocity o) "linear_velocity"
      = Some (VVector3 (geometry_msgs.Build_Vector3 1 0 0)).
Proof.
  apply (velocity_output_is_polled_kinematics driving); vm_compute; reflexivity.
Defined.

(** C8.  The heading a publish cycle writes into the GPS output is the yaw
    polled from the vehicle minus 90 (a binary64 subtraction): a yaw of 90.0
    gives a heading of 0.0, and a yaw of 0.0 gives -90.0. *)
Theorem heading_is_yaw_minus_90 w :
  wired w = true → constructed w = true → fed w = true →
  ∃ w' o, cycle w w' o ∧
    attr_of (heap w') (GpsWithHeading o) "heading"
      = Some (VFloat (carla.yaw (carla.rotation (transform (sim w))) - 90)) ∧
    (carla.yaw (carla.rotation (transform (sim w))) = 90%float →
     attr_of (heap w') (GpsWithHeading o) "heading" = Some (VFloat 0)) ∧
    (carla.yaw (carla.rotation (transform (sim w))) = 0%float →
     attr_of (heap w') (GpsWithHeading o) "heading" = Some (VFloat (-90))).
Proof.
  intros Hw Hc Hf. exists (after_cycle w), (outputs_of w).
  split; [by apply cycle_runs|].
  cbn [after_cycle outputs_of GpsWithHeading heap].
  rewrite gps_heading by done.
  split; [done|]. split; intros ->; reflexivity.
Qed.

Lemma heading_is_yaw_minus_90_witness :
  (∃ w' o, cycle driving w' o ∧
     attr_of (heap w') (GpsWithHeading o) "heading" = Some (VFloat (90 - 90)) ∧
     (90%float = 90%float →
      attr_of (heap w') (GpsWithHeading o) "heading" = Some (VFloat 0)) ∧
     (90%float = 0%float →
      attr_of (heap w') (GpsWithHeading o) "heading" = Some (VFloat (-90)))) ∧
  (∃ w' o, cycle (set_sim still driving) w' o ∧
     attr_of (heap w') (GpsWithHeading o) "heading" = Some (VFloat (0 - 90)) ∧
     (0%float = 90%float →
      attr_of (heap w') (GpsWithHeading o) "heading" = Some (VFloat 0)) ∧
     (0%float = 0%float →
      attr_of (heap w') (GpsWithHeading o) "heading" = Some (VFloat (-90)))).
Proof.
  split.
  - apply (heading_is_yaw_minus_90 driving); vm_compute; reflexivity.
  - apply (heading_is_yaw_minus_90 (set_sim still driving));
      vm_compute; reflexivity.
Defined.

(** C2, as stated, fails: with a LiDAR sample stamped 7, a GNSS fix stamped
    5 and an IMU reading stamped 6 in store, one cycle publishes a
    PointCloud and a Velocity stamped 7, a GPS output stamped 5 and an IMU
    output stamped 6. *)
Lemma outputs_do_not_share_one_stamp :
  ∃ w' o, cycle driving w' o ∧
    stamp_of (heap w') (PointCloud o) = Some (VTime 7 0) ∧
    stamp_of (heap w') (Velocity o) = Some (VTime 7 0) ∧
    stamp_of (heap w') (GpsWithHeading o) = Some (VTime 5 0) ∧
    stamp_of (heap w') (ImuOut o) = Some (VTime 6 0) ∧
    frame_of (heap w') (PointCloud o) = Some (VStr "odom") ∧
    frame_of (heap w') (GpsWithHeading o) = Some (VStr "gnss").
Proof.
  exists (after_cycle driving), (outputs_of driving).
  split; [apply cycle_runs; vm_compute; reflexivity|].
  vm_compute. repeat split.
Qed.

(** C2, amended.  In every publish cycle the Odometry, Velocity and
    Position outputs carry the header the node shares ([self.header]); the
    PointCloud output is the LiDAR sample in store and carries that same
    header once a LiDAR sample has been received; the GPS output carries
    the header of the GNSS sample in store, and the IMU output is the IMU
    sample in store, with the header that sample has in store (its stamp
    and frame included) when the sample is a message of its own and not
    one of the seven objects the node writes into.  "Once a LiDAR sample
    has been received" is [linked]: the LiDAR callback establishes it for a
    sample that is a message of its own, and the GNSS and IMU callbacks and
    the cycle itself keep it. *)
Theorem headers_of_the_outputs w :
  wired w = true → constructed w = true → fed w = true →
  ∃ w' o hd g, cycle w w' o ∧
    self_attr w "header" = Some hd ∧
    self_attr w' "header" = Some hd ∧
    attr_of (heap w') (OdometryWithGps o) "header" = Some hd ∧
    attr_of (heap w') (Velocity o) "header" = Some hd ∧
    attr_of (heap w') (Position o) "header" = Some hd ∧
    self_attr w "carla_lidar_data" = Some (PointCloud o) ∧
    (linked w = true → attr_of (heap w') (PointCloud o) "header" = Some hd) ∧
    self_attr w "carla_gnss_data" = Some g ∧
    attr_of (heap w') (GpsWithHeading o) "header" = attr_of (heap w) g "header" ∧
    attr_of (heap w') g "header" = attr_of (heap w) g "header" ∧
    self_attr w "carla_imu_data" = Some (ImuOut o) ∧
    (existsb (ref_is (Some (ImuOut o))) own_objects = false →
     attr_of (heap w') (ImuOut o) "header"
       = attr_of (heap w) (ImuOut o) "header" ∧
     stamp_of (heap w') (ImuOut o) = stamp_of (heap w) (ImuOut o) ∧
     frame_of (heap w') (ImuOut o) = frame_of (heap w) (ImuOut o)) ∧
    (linked w = true → linked w' = true) ∧
    (∀ m, linked w = true →
       linked (update_carla_gnss_data m w).2 = true ∧
       linked (update_carla_imu_data m w).2 = true) ∧
    (∀ lm l, attr_of (heap w) (VRef lm) "header" = Some (VRef l) →
       is_Some (heap w !! l) → foreign lm = true →
       ∃ w1, update_carla_lidar_data (VRef lm) w = (Return tt, w1) ∧
             linked w1 = true).
Proof.
  intros Hw Hc Hf.
  destruct (lookup_self_class (self_dict w) "header" _ eq_refl) as [hd Hhd].
  destruct (lookup_self_class (self_dict w) "carla_lidar_data" _ eq_refl)
    as [m Hm].
  destruct (lookup_self_class (self_dict w) "carla_gnss_data" _ eq_refl)
    as [g Hg].
  destruct (lookup_self_class (self_dict w) "carla_imu_data" _ eq_refl)
    as [i Hi].
  fold (self_attr w "header") in Hhd.
  fold (self_attr w "carla_lidar_data") in Hm.
  fold (self_attr w "carla_gnss_data") in Hg.
  fold (self_attr w "carla_imu_data") in Hi.
  exists (after_cycle w), (outputs_of w), hd, g.
  split; [by apply cycle_runs|].
  assert (linked w = true → linked (after_cycle w) = true) as Hlinked.
  { unfold linked, the. rewrite !cycle_dict_keeps by done.
    rewrite Hm. cbn [default from_option id after_cycle heap].
    intros Hl. apply andb_prop in Hl as [Hl Hm'].
    rewrite Hm', andb_true_r. apply negb_true_iff in Hm'.
    by rewrite (cycle_heap_foreign w m). }
  rewrite cycle_dict_keeps by done.
  cbn [after_cycle outputs_of heap PointCloud GpsWithHeading OdometryWithGps
       Velocity ImuOut Position].
  rewrite odom_header, velocity_header, position_header, gps_header by done.
  unfold the. rewrite Hhd, Hm, Hg, Hi. cbn [default from_option id].
  pose proof Hf as Hfed. unfold fed in Hfed. rewrite Hg in Hfed.
  apply andb_prop in Hfed as [Hfed Hforeign].
  apply andb_prop in Hfed as [Hgh _].
  apply negb_true_iff in Hforeign.
  apply readable_true in Hgh as (g' & gh & [= <-] & Hgh).
  rewrite (cycle_heap_foreign w g) by done.
  unfold the_attr. rewrite Hgh. cbn [default from_option id].
  splits; try done.
  - intros Hl. unfold linked, the in Hl. rewrite Hhd, Hm in Hl.
    cbn [default from_option id] in Hl.
    apply andb_prop in Hl as [Hl Hm'].  apply negb_true_iff in Hm'.
    rewrite (cycle_heap_foreign w m) by done.
    destruct hd; try done.
    destruct (attr_of (heap w) m "header") as [[]|]; try done.
    f_equal. f_equal. symmetry. by apply Pos.eqb_eq.
  - intros Hown. unfold stamp_of, frame_of.
    rewrite (cycle_heap_foreign w i) by done.
    split; [done|].
    destruct (attr_of (heap w) i "header") as [ih|]; [|done].
    cbn. unfold cycle_heap. by rewrite !attr_write_key by done.
  - intros m' Hl. rewrite run_update_carla_gnss_data, run_update_carla_imu_data.
    unfold linked, the, self_attr in *. cbn [snd self_dict heap].
    by rewrite !lookup_self_insert_ne by done.
  - intros lm l Hlm Hl Flm. exists (after_lidar w (VRef lm) l).
    split; [by apply run_lidar|by apply linked_after_lidar].
Qed.

Lemma headers_of_the_outputs_witness :
  linked driving = true ∧
  existsb (ref_is (self_attr driving "carla_imu_data")) own_objects = false ∧
  ∃ w' o hd g, cycle driving w' o ∧
    self_attr driving "header" = Some hd ∧
    self_attr w' "header" = Some hd ∧
    attr_of (heap w') (OdometryWithGps o) "header" = Some hd ∧
    attr_of (heap w') (Velocity o) "header" = Some hd ∧
    attr_of (heap w') (Position o) "header" = Some hd ∧
    self_attr driving "carla_lidar_data" = Some (PointCloud o) ∧
    (linked driving = true →
     attr_of (heap w') (PointCloud o) "header" = Some hd) ∧
    self_attr driving "carla_gnss_data" = Some g ∧
    attr_of (heap w') (GpsWithHeading o) "header"
      = attr_of (heap driving) g "header" ∧
    attr_of (heap w') g "header" = attr_of (heap driving) g "header" ∧
    self_attr driving "carla_imu_data" = Some (ImuOut o) ∧
    (existsb (ref_is (Some (ImuOut o))) own_objects = false →
     attr_of (heap w') (ImuOut o) "header"
       = attr_of (heap driving) (ImuOut o) "header" ∧
     stamp_of (heap w') (ImuOut o) = stamp_of (heap driving) (ImuOut o) ∧
     frame_of (heap w') (ImuOut o) = frame_of (heap driving) (ImuOut o)) ∧
    (linked driving = true → linked w' = true) ∧
    (∀ m, linked driving = true →
       linked (update_carla_gnss_data m driving).2 = true ∧
       linked (update_carla_imu_data m driving).2 = true) ∧
    (∀ lm l, attr_of (heap driving) (VRef lm) "header" = Some (VRef l) →
       is_Some (heap driving !! l) → foreign lm = true →
       ∃ w1, update_carla_lidar_data (VRef lm) driving = (Return tt, w1) ∧
             linked w1 = true).
Proof.
  split; [vm_compute; reflexivity|].
  split; [vm_compute; reflexivity|].
  apply (headers_of_the_outputs driving); vm_compute; reflexivity.
Defined.

(** C4, as stated, fails for the LiDAR callback: a sample that arrives in
    frame "velodyne" reads frame "odom" once the callback has returned. *)
Lemma lidar_callback_rewrites_the_received_message :
  ∃ w', update_carla_lidar_data (VRef 100) (arrivals node) = (Return tt, w') ∧
    frame_of (heap (arrivals node)) (VRef 100) = Some (VStr "velodyne") ∧
    frame_of (heap w') (VRef 100) = Some (VStr "odom") ∧
    message (heap w') (VRef 100) ≠ message (heap (arrivals node)) (VRef 100).
Proof.
  exists (after_lidar (arrivals node) (VRef 100) 101).
  split; [apply run_lidar; vm_compute; eauto|].
  split; [vm_compute; reflexivity|]. split; [vm_compute; reflexivity|].
  intros E.
  apply (f_equal (fun v => v ≫= fun p => p.2 ≫= fun hd => hd !! "frame_id")) in E.
  vm_compute in E. discriminate E.
Qed.

(** C4, amended.  The GNSS and the IMU callback store the message they
    receive and change nothing in it (they write nothing into the store at
    all).  The LiDAR callback stores the message it receives after setting
    the [frame_id] of the header of that very message to "odom"; no other
    field of any object changes. *)
Theorem callbacks_and_the_received_message w m :
  (∃ w', update_carla_gnss_data m w = (Return tt, w') ∧
     self_attr w' "carla_gnss_data" = Some m ∧
     heap w' = heap w ∧ message (heap w') m = message (heap w) m) ∧
  (∃ w', update_carla_imu_data m w = (Return tt, w') ∧
     self_attr w' "carla_imu_data" = Some m ∧
     heap w' = heap w ∧ message (heap w') m = message (heap w) m) ∧
  (∀ l, attr_of (heap w) m "header" = Some (VRef l) →
     is_Some (heap w !! l) →
     ∃ w', update_carla_lidar_data m w = (Return tt, w') ∧
       self_attr w' "carla_lidar_data" = Some m ∧
       self_attr w' "header" = Some (VRef l) ∧
       frame_of (heap w') m = Some (VStr "odom") ∧
       (∀ v a, a ≠ "frame_id" → attr_of (heap w') v a = attr_of (heap w) v a) ∧
       (∀ v a, v ≠ VRef l → attr_of (heap w') v a = attr_of (heap w) v a)).
Proof.
  split; [|split].
  - eexists. split; [apply run_update_carla_gnss_data|].
    unfold self_attr. cbn [self_dict heap].
    by rewrite lookup_self_insert_eq.
  - eexists. split; [apply run_update_carla_imu_data|].
    unfold self_attr. cbn [self_dict heap].
    by rewrite lookup_self_insert_eq.
  - intros l Hm Hl. exists (after_lidar w m l).
    split; [by apply run_lidar|].
    unfold after_lidar, self_attr, frame_of. cbn [self_dict heap].
    rewrite lookup_self_insert_eq.
    rewrite lookup_self_insert_ne, lookup_self_insert_eq by done.
    rewrite attr_write_key, Hm by done. cbn [mbind option_bind].
    rewrite attr_write_eq by done.
    repeat split.
    + intros v a Ha. by rewrite attr_write_key.
    + intros v a Hv. by rewrite attr_write_other.
Qed.

(** C3, as stated, fails: the PointCloud published by the cycle that
    follows the delivery of a sample in frame "velodyne" is that sample, but
    in frame "odom". *)
Lemma published_pointcloud_is_not_as_received :
  ∃ w1 w2 o,
    update_carla_lidar_data (VRef 100) (arrivals node) = (Return tt, w1) ∧
    cycle w1 w2 o ∧
    PointCloud o = VRef 100 ∧
    frame_of (heap (arrivals node)) (VRef 100) = Some (VStr "velodyne") ∧
    frame_of (heap w2) (PointCloud o) = Some (VStr "odom") ∧
    message (heap w2) (PointCloud o) ≠ message (heap (arrivals node)) (VRef 100).
Proof.
  exists (after_lidar (arrivals node) (VRef 100) 101).
  exists (after_cycle (after_lidar (arrivals node) (VRef 100) 101)).
  exists (outputs_of (after_lidar (arrivals node) (VRef 100) 101)).
  split; [apply run_lidar; vm_compute; eauto|].
  split; [apply cycle_runs; vm_compute; reflexivity|].
  split; [vm_compute; reflexivity|].
  split; [vm_compute; reflexivity|]. split; [vm_compute; reflexivity|].
  intros E.
  apply (f_equal (fun v => v ≫= fun p => p.2 ≫= fun hd => hd !! "frame_id")) in E.
  vm_compute in E. discriminate E.
Qed.

(** C3, amended.  A well-formed LiDAR sample (an object [lm] of its own
    whose header is an object [l] of its own) that is delivered to the
    LiDAR callback is the PointCloud message of the next publish cycle: the
    same object, every field of its own as received (the point buffer
    included), and its header as received except for [frame_id], which
    reads "odom". *)
Theorem pointcloud_output_is_the_sample_in_frame_odom w lm l o hdr :
  heap w !! lm = Some o →
  o !! "header" = Some (VRef l) →
  heap w !! l = Some hdr →
  lm ≠ l → foreign lm = true → foreign l = true →
  wired w = true → constructed w = true → fed w = true →
  ∃ w1 w2 out,
    update_carla_lidar_data (VRef lm) w = (Return tt, w1) ∧
    cycle w1 w2 out ∧
    PointCloud out = VRef lm ∧
    message (heap w) (VRef lm) = Some (o, Some hdr) ∧
    message (heap w2) (PointCloud out)
      = Some (o, Some (<["frame_id" := VStr "odom"]> hdr)).
Proof.
  intros Ho Hh Hhdr Hne Flm Fl Hw Hc Hf.
  assert (attr_of (heap w) (VRef lm) "header" = Some (VRef l)) as Hm.
  { cbn. by rewrite Ho. }
  exists (after_lidar w (VRef lm) l), (after_cycle (after_lidar w (VRef lm) l)),
    (outputs_of (after_lidar w (VRef lm) l)).
  split; [apply run_lidar; [done|by rewrite Hhdr]|].
  split.
  { apply cycle_runs.
    - by rewrite wired_after_lidar.
    - by rewrite constructed_after_lidar.
    - by rewrite fed_after_lidar. }
  assert (PointCloud (outputs_of (after_lidar w (VRef lm) l)) = VRef lm) as ->.
  { unfold outputs_of, PointCloud, the, after_lidar, self_attr.
    cbn [self_dict]. by rewrite lookup_self_insert_eq. }
  split; [done|]. split.
  { unfold message. cbn [deref]. rewrite Ho. cbn [mbind option_bind].
    rewrite Hh. cbn [mbind option_bind deref]. by rewrite Hhdr. }
  unfold message. cbn [deref after_cycle heap].
  rewrite cycle_heap_elsewhere by done.
  cbn [after_lidar heap].
  rewrite lookup_write_ne, Ho by done. cbn [mbind option_bind].
  rewrite Hh. cbn [mbind option_bind deref].
  rewrite cycle_heap_elsewhere by done. unfold after_lidar. cbn [heap].
  by rewrite lookup_write, decide_True, Hhdr by done.
Qed.

Lemma pointcloud_output_is_the_sample_in_frame_odom_witness :
  ∃ w1 w2 out,
    update_carla_lidar_data (VRef 100) (arrivals node) = (Return tt, w1) ∧
    cycle w1 w2 out ∧
    PointCloud out = VRef 100 ∧
    message (heap (arrivals node)) (VRef 100)
      = Some (lidar_sample, Some (stamped 7 "velodyne")) ∧
    message (heap w2) (PointCloud out)
      = Some (lidar_sample,
              Some (<["frame_id" := VStr "odom"]> (stamped 7 "velodyne"))).
Proof.
  apply (pointcloud_output_is_the_sample_in_frame_odom (arrivals node) 100 101);
    vm_compute; (reflexivity || discriminate).
Defined.

Lemma callback_stores s w w1 :
  callback s w = (Return tt, w1) →
  self_attr w1 "carla_lidar_data"
    = match lidar_of s with Some m => Some m | None => self_attr w "carla_lidar_data" end ∧
  self_attr w1 "carla_gnss_data"
    = match gnss_of s with Some m => Some m | None => self_attr w "carla_gnss_data" end ∧
  self_attr w1 "carla_imu_data"
    = match imu_of s with Some m => Some m | None => self_attr w "carla_imu_data" end ∧
  (lidar_of s = None → heap w1 = heap w) ∧
  (∀ v a, a ≠ "frame_id" → attr_of (heap w1) v a = attr_of (heap w) v a).
Proof.
  destruct s as [m|m|m]; cbn [callback lidar_of gnss_of imu_of].
  - intros (l & _ & _ & ->)%lidar_returns.
    unfold after_lidar, self_attr. cbn [self_dict heap].
    rewrite lookup_self_insert_eq. rewrite !lookup_self_insert_ne by done.
    splits; try done. intros v a Ha. by rewrite attr_write_key.
  - rewrite run_update_carla_gnss_data. intros [= <-].
    unfold self_attr. cbn [self_dict heap].
    rewrite lookup_self_insert_eq. by rewrite !lookup_self_insert_ne by done.
  - rewrite run_update_carla_imu_data. intros [= <-].
    unfold self_attr. cbn [self_dict heap].
    rewrite lookup_self_insert_eq. by rewrite !lookup_self_insert_ne by done.
Qed.

(** C6.  After any finite sequence of deliveries to the three callbacks,
    each of the three stored samples is the message most recently delivered
    to its stream (the one stored before when the stream received none):
    the last write wins, nothing is merged, and a delivery to one stream
    leaves what is stored for the other two as it was.  No delivery changes
    a field of any object other than a [frame_id], and deliveries to the
    GNSS and IMU streams alone leave the whole store as it was. *)
Theorem last_write_wins ss w w' :
  deliver ss w = (Return tt, w') →
  self_attr w' "carla_lidar_data"
    = latest lidar_of ss (self_attr w "carla_lidar_data") ∧
  self_attr w' "carla_gnss_data"
    = latest gnss_of ss (self_attr w "carla_gnss_data") ∧
  self_attr w' "carla_imu_data"
    = latest imu_of ss (self_attr w "carla_imu_data") ∧
  (Forall (fun s => lidar_of s = None) ss → heap w' = heap w) ∧
  (∀ v a, a ≠ "frame_id" → attr_of (heap w') v a = attr_of (heap w) v a).
Proof.
  revert w. induction ss as [|s rest IH]; intros w.
  - intros [= <-]. splits; done.
  - unfold deliver. cbn [for_each].
    destruct (callback s w) as [[[]|e] w1] eqn:Hs.
    2:{ by erewrite bind_raise by exact Hs. }
    erewrite bind_run by exact Hs. intros Hrest.
    destruct (IH _ Hrest) as (Hl & Hg & Hi & Hh & Hf).
    destruct (callback_stores _ _ _ Hs) as (Hl1 & Hg1 & Hi1 & Hh1 & Hf1).
    cbn [latest]. rewrite Hl, Hg, Hi, Hl1, Hg1, Hi1.
    splits; try done.
    + intros [Hs0 Hrest0]%Forall_cons. rewrite Hh, Hh1; done.
    + intros v a Ha. by rewrite Hf, Hf1.
Qed.

Lemma last_write_wins_witness :
  self_attr (deliver three_samples (arrivals node)).2 "carla_lidar_data"
    = latest lidar_of three_samples (self_attr (arrivals node) "carla_lidar_data") ∧
  self_attr (deliver three_samples (arrivals node)).2 "carla_gnss_data"
    = latest gnss_of three_samples (self_attr (arrivals node) "carla_gnss_data") ∧
  self_attr (deliver three_samples (arrivals node)).2 "carla_imu_data"
    = latest imu_of three_samples (self_attr (arrivals node) "carla_imu_data") ∧
  (Forall (fun s => lidar_of s = None) three_samples →
   heap (deliver three_samples (arrivals node)).2 = heap (arrivals node)) ∧
  (∀ v a, a ≠ "frame_id" →
     attr_of (heap (deliver three_samples (arrivals node)).2) v a
     = attr_of (heap (arrivals node)) v a).
Proof.
  apply (last_write_wins three_samples (arrivals node)).
  vm_compute. reflexivity.
Defined.

(** C9, as stated, fails.  An object without any field, delivered as a GNSS
    sample, is not discarded: it replaces the stored sample, the only log
    record is at debug level, and the next publish cycle raises on it.  The
    same object delivered as a LiDAR sample makes the callback raise. *)
Lemma malformed_sample_is_not_discarded :
  ∃ w',
    message (heap bare) (VRef 200) = Some (∅, None) ∧
    self_attr bare "carla_gnss_data" = Some (VRef 4) ∧
    update_carla_gnss_data (VRef 200) bare = (Return tt, w') ∧
    self_attr w' "carla_gnss_data" = Some (VRef 200) ∧
    trace w' = trace bare ++ [ELog "debug" "Received gnss data"] ∧
    (publish_vehicle_data w').1 = Raise AttributeError ∧
    update_carla_lidar_data (VRef 200) bare = (Raise AttributeError, bare).
Proof.
  eexists. split; [vm_compute; reflexivity|]. split; [vm_compute; reflexivity|].
  split; [apply run_update_carla_gnss_data|].
  split; [vm_compute; reflexivity|]. split; [reflexivity|].
  split; [vm_compute; reflexivity|].
  apply lidar_raises_without_header. vm_compute. reflexivity.
Qed.

(** C9, amended.  The callbacks do not validate what they receive.  The
    GNSS and the IMU callback store any value they are handed, in place of
    the sample stored before, log one record at debug level and return; the
    LiDAR callback raises AttributeError on a sample without a header,
    before it has assigned or logged anything. *)
Theorem callbacks_do_not_validate w m :
  (∃ w', update_carla_gnss_data m w = (Return tt, w') ∧
     self_attr w' "carla_gnss_data" = Some m ∧
     trace w' = trace w ++ [ELog "debug" "Received gnss data"]) ∧
  (∃ w', update_carla_imu_data m w = (Return tt, w') ∧
     self_attr w' "carla_imu_data" = Some m ∧
     trace w' = trace w ++ [ELog "debug" "Received imu data"]) ∧
  (attr_of (heap w) m "header" = None →
   update_carla_lidar_data m w = (Raise AttributeError, w)).
Proof.
  split; [|split].
  - eexists. split; [apply run_update_carla_gnss_data|].
    unfold self_attr. cbn [self_dict trace]. by rewrite lookup_self_insert_eq.
  - eexists. split; [apply run_update_carla_imu_data|].
    unfold self_attr. cbn [self_dict trace]. by rewrite lookup_self_insert_eq.
  - apply lidar_raises_without_header.
Qed.




Lemma run_check_topics config topics flag w :
  check_topics config topics flag w =
  (Return (flag && forallb (present config) topics),
   World (heap w) (self_dict w) (sim w) (handles w)
     (trace w ++ missing_logs config topics)).
Proof.
  revert flag w. induction topics as [|topic rest IH]; intros flag w.
  - destruct w. cbn. by rewrite andb_true_r, app_nil_r.
  - cbn [check_topics forallb]. unfold missing_logs. cbn [filter list_filter].
    fold (present config topic).
    destruct (present config topic) eqn:Hp; cbn [negb].
    + rewrite IH. rewrite decide_False by done. by rewrite andb_true_l.
    + erewrite bind_run by reflexivity. rewrite IH.
      rewrite decide_True by done. cbn [emit heap self_dict sim handles trace map].
      rewrite andb_false_r. cbn [andb]. by rewrite <- app_assoc.
Qed.

Lemma run_create rcl r w :
  rcl r = true →
  create rcl r w =
  (Return (VHandle (handles w)), emit (ECreate (handles w) r) (new_handle w)).
Proof. intros Hr. unfold create. by rewrite Hr. Qed.

Lemma create_refused rcl r w :
  rcl r = false → create rcl r w = (Raise (RclpyError r), w).
Proof. intros Hr. unfold create. by rewrite Hr. Qed.

Lemma run_init rcl vehicle config w :
  (∀ r, rcl r = true) →
  __init__ rcl vehicle config w = (Return tt, after_init vehicle config w).
Proof.
  intros Hrcl. destruct w as [h d k n t].
  unfold __init__, create_subscription, create_publisher, create_timer.
  erewrite bind_run by reflexivity.
  do 2 step.
  repeat (erewrite bind_run by (apply run_create; apply Hrcl); norm_world; step).
  erewrite bind_run by (apply run_create; apply Hrcl). norm_world.
  rewrite run_setself. norm_world.
  unfold after_init. cbn [heap self_dict sim handles trace bind_entities
    entities created requests Nat.add]. do 2 f_equal.
  by rewrite <- !app_assoc.
Qed.


(** C1, as stated, fails.  A configuration with a negative [loop_rate] passes
    [check_config]; the constructor, which never consults [check_config],
    has created the three subscriptions and the six publishers by the time
    an rclpy that insists on a positive period refuses the timer, and it
    completes when rclpy accepts the period.  With a required topic absent
    [check_config] answers false and raises nothing, and the constructor
    again creates the three subscriptions first. *)
Lemma construction_does_not_validate :
  (check_config config_negative boot).1 = Return true ∧
  (__init__ strict (VActor 1) config_negative boot).1
    = Raise (RclpyError (RTimer (VFloat (-1)) "publish_vehicle_data")) ∧
  length (filter (fun e => is_create_subscription e = true)
            (trace (__init__ strict (VActor 1) config_negative boot).2)) = 3 ∧
  (__init__ accept_all (VActor 1) config_negative boot).1 = Return tt ∧
  (check_config config_partial boot).1 = Return false ∧
  (__init__ strict (VActor 1) config_partial boot).1
    = Raise (RclpyError (RPublisher "sensor_msgs.msg.PointCloud2" VNone)) ∧
  length (filter (fun e => is_create_subscription e = true)
            (trace (__init__ strict (VActor 1) config_partial boot).2)) = 3.
Proof. splits; vm_compute; reflexivity. Qed.

(** C1, amended.  [check_config] answers true exactly when every required
    key is present with a value Python counts as true (so [None], 0, 0.0
    and the empty string fail, a negative number passes); it logs one error
    per failing key and never raises.  The constructor does not call it:
    its first request is the GNSS subscription, whatever the configuration
    holds (when rclpy refuses that request, the refusal is what is raised),
    and when rclpy accepts the ten requests the construction completes for
    every configuration. *)
Theorem check_config_and_construction config w :
  check_config config w =
    (Return (forallb (present config) required_topics),
     World (heap w) (self_dict w) (sim w) (handles w)
       (trace w ++ missing_logs config required_topics)) ∧
  (∀ topic, present config topic = true ↔
     ∃ v, config !! topic = Some v ∧ truthy v = true) ∧
  (∀ rcl vehicle, (∀ r, rcl r = true) →
     __init__ rcl vehicle config w = (Return tt, after_init vehicle config w)) ∧
  (∀ rcl vehicle r, head (requests config) = Some r → rcl r = false →
     ∃ w', __init__ rcl vehicle config w = (Raise (RclpyError r), w') ∧
           trace w' = trace w ++ [ENode "vehicle_info_publisher"]).
Proof.
  split; [|split; [|split]].
  - unfold check_config. by rewrite run_check_topics.
  - intros topic. unfold present, dict_get. destruct (config !! topic) as [v|].
    + cbn. split; [eauto|]. by intros (v' & [= <-] & Hv).
    + cbn. split; [done|]. by intros (v' & [=] & _).
  - intros rcl vehicle Hrcl. by apply run_init.
  - intros rcl vehicle r [= <-] Hr. destruct w as [h d k n t].
    exists (World h (<["config" := VDict config]> (<["vehicle" := vehicle]> d))
              k n (t ++ [ENode "vehicle_info_publisher"])).
    split; [|done]. unfold __init__, create_subscription.
    erewrite bind_run by reflexivity. do 2 step.
    by erewrite bind_raise by (apply create_refused; exact Hr).
Qed.

Lemma run_cleanup w :
  forallb (fun p => is_handle (self_attr w p)) publishers = true →
  timer_state w = true →
  cleanup w =
  (Return tt,
   World (heap w) (self_dict w) (sim w) (handles w)
     (trace w ++ cleanup_events w)).
Proof.
  destruct w as [h d k n t].
  unfold timer_state, cleanup_events, handle_of, publishers, self_attr.
  cbn [forallb map heap self_dict sim handles trace].
  intros Hp Ht. bools. unfold cleanup.
  erewrite (bind_run (hasself _)) by reflexivity. norm_world.
  repeat match goal with H : lookup_self _ _ = Some _ |- _ => rewrite H end.
  destruct (lookup_self d "timer") as [[]|] eqn:Htimer; try done.
  - cbn [bool_decide decide_rel is_Some_dec].
    erewrite (bind_run (getself "timer" ≫= _))
      by (erewrite bind_run by (apply run_getself; exact Htimer); reflexivity).
    norm_world. do 6 step. cbn [for_each].
    repeat (erewrite bind_run by reflexivity; norm_world).
    unfold mret, M_ret. do 2 f_equal. by rewrite <- !app_assoc.
  - cbn [bool_decide decide_rel is_Some_dec].
    erewrite (bind_run (mret tt)) by reflexivity.
    norm_world. do 6 step. cbn [for_each].
    repeat (erewrite bind_run by reflexivity; norm_world).
    unfold mret, M_ret. do 2 f_equal. by rewrite <- !app_assoc.
Qed.

(** The attributes stay bound: cleanup can be asked again, and asks the
    same of rclpy. *)
Lemma cleanup_events_stable w es :
  cleanup_events (World (heap w) (self_dict w) (sim w) (handles w) es)
  = cleanup_events w.
Proof. done. Qed.

(** C10, as stated, fails.  On the constructed node a second call of
    cleanup cancels the timer and destroys each of the six publishers once
    more, and no call ever releases one of the three subscriptions (handles
    0, 1 and 2).  On a node whose construction stopped at the first
    publisher, cleanup raises AttributeError. *)
Lemma cleanup_is_not_idempotent :
  trace (cleanup node).2
    = trace node ++ [ECancel 9; EDestroy 3; EDestroy 4; EDestroy 5;
                     EDestroy 6; EDestroy 7; EDestroy 8] ∧
  (cleanup (cleanup node).2).1 = Return tt ∧
  trace (cleanup (cleanup node).2).2
    = trace node ++ [ECancel 9; EDestroy 3; EDestroy 4; EDestroy 5;
                     EDestroy 6; EDestroy 7; EDestroy 8;
                     ECancel 9; EDestroy 3; EDestroy 4; EDestroy 5;
                     EDestroy 6; EDestroy 7; EDestroy 8] ∧
  (__init__ strict (VActor 1) config_partial boot).1
    = Raise (RclpyError (RPublisher "sensor_msgs.msg.PointCloud2" VNone)) ∧
  (cleanup (__init__ strict (VActor 1) config_partial boot).2).1
    = Raise AttributeError.
Proof. splits; vm_compute; reflexivity. Qed.

(** C10, amended.  On a node that has its six publishers, with or without
    a timer, cleanup raises no error: it cancels the timer if there is one
    and asks each of the six publishers to destroy itself, in the order of
    the source, and nothing else (no subscription is released).  It leaves
    every attribute bound, so a second call returns normally as well and
    repeats the same requests. *)
Theorem cleanup_repeats_its_requests w :
  forallb (fun p => is_handle (self_attr w p)) publishers = true →
  timer_state w = true →
  ∃ w1 w2,
    cleanup w = (Return tt, w1) ∧
    cleanup w1 = (Return tt, w2) ∧
    trace w1 = trace w ++ cleanup_events w ∧
    trace w2 = trace w ++ cleanup_events w ++ cleanup_events w ∧
    heap w2 = heap w ∧ self_dict w2 = self_dict w ∧
    (self_attr w "timer" = None →
     cleanup_events w = map (fun p => EDestroy (handle_of w p)) publishers).
Proof.
  intros Hp Ht.
  exists (World (heap w) (self_dict w) (sim w) (handles w)
            (trace w ++ cleanup_events w)).
  exists (World (heap w) (self_dict w) (sim w) (handles w)
            (trace w ++ cleanup_events w ++ cleanup_events w)).
  split; [by apply run_cleanup|]. split.
  { rewrite run_cleanup by done. cbn [heap self_dict sim handles trace].
    by rewrite cleanup_events_stable, <- app_assoc. }
  repeat split. intros Hnone. unfold cleanup_events. by rewrite Hnone.
Qed.

Lemma cleanup_repeats_its_requests_witness :
  ∃ w1 w2,
    cleanup node = (Return tt, w1) ∧
    cleanup w1 = (Return tt, w2) ∧
    trace w1 = trace node ++ cleanup_events node ∧
    trace w2 = trace node ++ cleanup_events node ++ cleanup_events node ∧
    heap w2 = heap node ∧ self_dict w2 = self_dict node ∧
    (self_attr node "timer" = None →
     cleanup_events node = map (fun p => EDestroy (handle_of node p)) publishers).
Proof.
  apply (cleanup_repeats_its_requests node); vm_compute; reflexivity.
Defined.

End Claims.

(** * Further properties *)

Section Construction.

  Import VehicleInfoPublisher.

(** X1.  A configuration that [check_config] accepts gives the constructor a
    value for every one of its ten requests: no topic and no period is
    [None] (or any other value Python counts as false). *)
Theorem accepted_config_has_every_argument config w w' :
  check_config config w = (Return true, w') →
  Forall (fun r => request_arg r ≠ VNone ∧ truthy (request_arg r) = true)
    (requests config).
Proof.
  unfold check_config. rewrite run_check_topics. intros [= Hall _].
  cbn [andb] in Hall.
  unfold required_topics in Hall. cbn [forallb] in Hall. unfold present in Hall.
  bools. unfold requests.
  repeat (constructor;
          [cbn [request_arg]; split; [intros E; rewrite E in *; done|done]|]).
  constructor.
Qed.

Lemma accepted_config_has_every_argument_witness :
  Forall (fun r => request_arg r ≠ VNone ∧ truthy (request_arg r) = true)
    (requests config_ok).
Proof.
  apply (accepted_config_has_every_argument config_ok boot
           (check_config config_ok boot).2).
  vm_compute. reflexivity.
Defined.

Ltac known_answers :=
  cbn [list_find];
  repeat match goal with
  | H : ?rcl ?r = _ |- context [?rcl ?r] => rewrite H
  end;
  repeat (rewrite decide_False by done; cbn [fmap option_fmap option_map]).

Ltac refused H :=
  erewrite bind_raise by (apply create_refused; exact H);
  known_answers; rewrite decide_True by done;
  cbn [fmap option_fmap option_map prod_map fst snd id];
  unfold init_upto;
  cbn [heap self_dict sim handles trace take entities bind_entities
       created requests Nat.add];
  do 2 f_equal; by rewrite <- ?app_assoc.

Ltac granted H :=
  erewrite bind_run by (apply run_create; exact H); norm_world.

Ltac init_request :=
  lazymatch goal with
  | |- (create ?rcl ?r ≫= _) _ = _ =>
      let H := fresh "Hr" in
      destruct (rcl r) eqn:H; [granted H | refused H]
  end.

Lemma run_init_any rcl vehicle config w :
  __init__ rcl vehicle config w =
  match first_refused rcl (requests config) with
  | Some (k, r) => (Raise (RclpyError r), init_upto k vehicle config w)
  | None => (Return tt, after_init vehicle config w)
  end.
Proof.
  destruct w as [h d k n t].
  unfold __init__, create_subscription, create_publisher, create_timer,
    first_refused, requests.
  erewrite bind_run by reflexivity. do 2 step.
  do 9 (init_request; step).
  init_request. rewrite run_setself. norm_world.
  known_answers. cbn [fmap option_fmap option_map].
  unfold after_init.
  cbn [heap self_dict sim handles trace entities bind_entities
       created requests Nat.add].
  do 2 f_equal. by rewrite <- ?app_assoc.
Qed.

Ltac next_publisher :=
  lazymatch goal with
  | |- (getself ?a ≫= _) (World _ ?d _ _ _) = _ =>
      let E := fresh "E" in
      destruct (lookup_self d a) eqn:E;
      [ try congruence;
        erewrite bind_run by (apply run_getself; exact E); norm_world
      | by erewrite bind_raise by (apply run_getself_raise; exact E) ]
  end.

Lemma cleanup_raises w p :
  p ∈ publishers → self_attr w p = None → timer_state w = true →
  cleanup w =
  (Raise AttributeError,
   World (heap w) (self_dict w) (sim w) (handles w)
     (trace w ++ match self_attr w "timer" with
                 | Some (VHandle t) => [ECancel t]
                 | _ => []
                 end)).
Proof.
  destruct w as [h d k n t]. unfold timer_state, self_attr, publishers.
  cbn [heap self_dict sim handles trace].
  intros Hp Hnone Ht. unfold cleanup.
  erewrite (bind_run (hasself _)) by reflexivity. norm_world.
  destruct (lookup_self d "timer") as [[]|] eqn:Htimer; try done;
    cbn [bool_decide decide_rel is_Some_dec].
  - erewrite (bind_run (getself "timer" ≫= _))
      by (erewrite bind_run by (apply run_getself; exact Htimer); reflexivity).
    norm_world.
    repeat (apply elem_of_cons in Hp as [->|Hp]; [repeat next_publisher|]).
    by apply elem_of_nil in Hp.
  - erewrite (bind_run (mret tt)) by reflexivity. norm_world.
    rewrite app_nil_r.
    repeat (apply elem_of_cons in Hp as [->|Hp]; [repeat next_publisher|]).
    by apply elem_of_nil in Hp.
Qed.

(** X3.  cleanup reads its six publishers before it destroys any: when one
    of them is not bound it raises AttributeError without having asked any
    publisher to destroy itself, whichever of the others are bound.  A bound
    timer has been cancelled by then. *)
Theorem cleanup_needs_every_publisher w p :
  p ∈ publishers → self_attr w p = None → timer_state w = true →
  ∃ w', cleanup w = (Raise AttributeError, w') ∧
    heap w' = heap w ∧ self_dict w' = self_dict w ∧
    trace w' = trace w ++ match self_attr w "timer" with
                          | Some (VHandle t) => [ECancel t]
                          | _ => []
                          end.
Proof.
  intros Hp Hnone Ht. eexists. split; [by apply (cleanup_raises w p)|].
  cbn [heap self_dict trace]. by splits.
Qed.

Lemma cleanup_needs_every_publisher_witness :
  ∃ w', cleanup stalled = (Raise AttributeError, w') ∧
    heap w' = heap stalled ∧ self_dict w' = self_dict stalled ∧
    trace w' = trace stalled ++ match self_attr stalled "timer" with
                                | Some (VHandle t) => [ECancel t]
                                | _ => []
                                end.
Proof.
  apply (cleanup_needs_every_publisher stalled "lidar_pub").
  - constructor.
  - vm_compute. reflexivity.
  - vm_compute. reflexivity.
Defined.

(** X2.  The constructor stops at the first request rclpy refuses: the
    error raised is rclpy's for that request, the entities requested before
    it are created and bound to their attributes, in the order of the
    source, and nothing after it is requested or bound.  When rclpy refuses
    none of the ten requests the construction completes. *)
Theorem construction_stops_at_first_refusal rcl vehicle config w :
  __init__ rcl vehicle config w =
  match first_refused rcl (requests config) with
  | Some (k, r) => (Raise (RclpyError r), init_upto k vehicle config w)
  | None => (Return tt, after_init vehicle config w)
  end.
Proof. apply run_init_any. Qed.

Ltac lookups :=
  repeat (rewrite lookup_self_insert_eq
          || rewrite lookup_self_insert_ne by done).

Ltac unbound p :=
  exists p; split; [repeat constructor|];
  unfold init_upto, self_attr;
  cbn [self_dict take entities bind_entities]; lookups;
  split; reflexivity.

(** X4.  On a fresh instance whose construction rclpy stopped, cleanup
    raises AttributeError and changes nothing when the refused request was
    a subscription or a publisher (the first nine requests); when it was the
    timer (the tenth), cleanup returns normally and has asked each of the six
    publishers to destroy itself, cancelling nothing. *)
Theorem cleanup_after_refused_construction rcl vehicle config w k r :
  self_dict w = ∅ →
  first_refused rcl (requests config) = Some (k, r) →
  ∃ w1, __init__ rcl vehicle config w = (Raise (RclpyError r), w1) ∧
    (k < 9 → cleanup w1 = (Raise AttributeError, w1)) ∧
    (k = 9 → ∃ w2, cleanup w1 = (Return tt, w2) ∧
       trace w2 = trace w1 ++ map EDestroy (seq (3 + handles w) 6)).
Proof.
  intros Hfresh Hfirst. exists (init_upto k vehicle config w).
  split; [by rewrite run_init_any, Hfirst|].
  assert (k < 10) as Hk.
  { unfold first_refused in Hfirst.
    apply list_find_Some in Hfirst as (Hl & _).
    by apply lookup_lt_Some in Hl. }
  destruct w as [h d kin n t]. cbn [self_dict] in Hfresh. subst d.
  split.
  - intros Hk9.
    assert (∃ p, p ∈ publishers ∧
              self_attr (init_upto k vehicle config (World h ∅ kin n t)) p = None ∧
              self_attr (init_upto k vehicle config (World h ∅ kin n t)) "timer" = None)
      as (p & Hp & Hnone & Htimer).
    { do 9 (destruct k as [|k];
            [first [ unbound "lidar_pub" | unbound "gps_pub"
                   | unbound "odom_pub" | unbound "velocity_pub"
                   | unbound "imu_pub" | unbound "position_pub" ]|]).
      lia. }
    rewrite (cleanup_raises _ p) by (done || (unfold timer_state; by rewrite Htimer)).
    rewrite Htimer, app_nil_r. by unfold init_upto.
  - intros ->. eexists. split.
    + apply run_cleanup.
      * unfold init_upto, self_attr, publishers.
        cbn [self_dict take entities bind_entities forallb]. by lookups.
      * unfold timer_state, init_upto, self_attr.
        cbn [self_dict take entities bind_entities]. by lookups.
    + cbn [trace]. f_equal.
Qed.

Lemma cleanup_after_refused_construction_witness :
  ∃ w1,
    __init__ strict (VActor 1) config_partial boot
      = (Raise (RclpyError (RPublisher "sensor_msgs.msg.PointCloud2" VNone)), w1) ∧
    (3 < 9 → cleanup w1 = (Raise AttributeError, w1)) ∧
    (3 = 9 → ∃ w2, cleanup w1 = (Return tt, w2) ∧
       trace w2 = trace w1 ++ map EDestroy (seq (3 + handles boot) 6)).
Proof.
  apply (cleanup_after_refused_construction strict (VActor 1) config_partial
           boot 3).
  - reflexivity.
  - vm_compute. reflexivity.
Defined.

End Construction.

Section CycleFrame.

  Import VehicleInfoPublisher.

Lemma not_in_cycle_fields a :
  a ∉ cycle_fields →
  a ≠ "header" ∧ a ≠ "gps" ∧ a ≠ "roll" ∧ a ≠ "pitch" ∧ a ≠ "heading" ∧
  a ≠ "odometry" ∧ a ≠ "angular_velocity" ∧ a ≠ "linear_velocity" ∧
  a ≠ "vector" ∧ a ≠ "pose" ∧ a ≠ "twist".
Proof.
  intros Ha. splits; intros ->; apply Ha; unfold cycle_fields;
    repeat constructor.
Qed.

Lemma cycle_heap_other_fields w v a :
  a ∉ cycle_fields → attr_of (cycle_heap w) v a = attr_of (heap w) v a.
Proof.
  intros Ha. apply not_in_cycle_fields in Ha.
  destruct Ha as (?&?&?&?&?&?&?&?&?&?&?).
  unfold cycle_heap. by rewrite !attr_write_key by done.
Qed.

Lemma dom_write l a x (h : gmap positive (gmap string val)) :
  dom (write l a x h) = dom h.
Proof. unfold write. apply dom_alter_L. Qed.

(** X5.  A publish cycle writes into the seven objects of the class and
    nowhere else, and only into the fields it builds: every other object of
    the store is as it was, no stamp, frame_id or point buffer of any object
    changes, no object is created or dropped, the samples in store and the
    shared header stay bound as they were, and no rclpy entity is created. *)
Theorem cycle_writes_only_what_it_builds w :
  wired w = true → constructed w = true → fed w = true →
  ∃ w' o, cycle w w' o ∧
    (∀ l, foreign l = true → heap w' !! l = heap w !! l) ∧
    (∀ v a, a ∉ cycle_fields → attr_of (heap w') v a = attr_of (heap w) v a) ∧
    dom (heap w') = dom (heap w) ∧
    (∀ a, a ∉ cycle_attributes → self_attr w' a = self_attr w a) ∧
    handles w' = handles w.
Proof.
  intros Hw Hc Hf. exists (after_cycle w), (outputs_of w).
  split; [by apply cycle_runs|]. cbn [after_cycle heap handles]. splits.
  - intros l Hl. by apply cycle_heap_elsewhere.
  - intros v a Ha. by apply cycle_heap_other_fields.
  - unfold cycle_heap. by rewrite !dom_write.
  - intros a Ha. apply cycle_dict_keeps; intros ->; apply Ha;
      unfold cycle_attributes; repeat constructor.
  - done.
Qed.

Lemma cycle_writes_only_what_it_builds_witness :
  ∃ w' o, cycle driving w' o ∧
    (∀ l, foreign l = true → heap w' !! l = heap driving !! l) ∧
    (∀ v a, a ∉ cycle_fields →
       attr_of (heap w') v a = attr_of (heap driving) v a) ∧
    dom (heap w') = dom (heap driving) ∧
    (∀ a, a ∉ cycle_attributes → self_attr w' a = self_attr driving a) ∧
    handles w' = handles driving.
Proof.
  apply (cycle_writes_only_what_it_builds driving); vm_compute; reflexivity.
Defined.

End CycleFrame.

Section CycleFailures.

  Import VehicleInfoPublisher.
  Implicit Types (h : gmap positive (gmap string val)) (d : gmap string val).

Lemma get_gps_data_raises h d k n t g :
  lookup_self d "carla_gnss_data" = Some g →
  attr_of h g "header" = None →
  get_gps_data (World h d k n t) = (Raise AttributeError, World h d k n t).
Proof.
  intros Hg Hnone. unfold get_gps_data. step.
  by erewrite bind_raise by (by apply run_getattr_raise).
Qed.

Lemma get_velocity_data_raises h d k n t hd i :
  lookup_self d "header" = Some hd →
  lookup_self d "velocity_data" = Some (VRef 26) →
  is_Some (h !! 26%positive) →
  lookup_self d "carla_imu_data" = Some i →
  attr_of h i "angular_velocity" = None →
  get_velocity_data (World h d k n t)
  = (Raise AttributeError, World (write 26 "header" hd h) d k n t).
Proof.
  intros Hhd Hv Ha Hi Hnone. unfold get_velocity_data. do 4 step.
  erewrite bind_raise; [done|].
  apply run_getattr_raise. cbn [heap]. by rewrite attr_write_key.
Qed.

(** X6.  A publish cycle that cannot read a stored sample publishes nothing.
    With a GNSS sample in store that has no header, the cycle raises
    AttributeError on the GPS message, and with an IMU sample that has no
    angular velocity it raises on the Velocity message: in both cases before
    the first call of publish, so none of the six outputs is published, the
    PointCloud included. *)
Theorem cycle_with_an_unreadable_sample_publishes_nothing w :
  wired w = true → constructed w = true →
  (∀ g, self_attr w "carla_gnss_data" = Some g →
        attr_of (heap w) g "header" = None → g ≠ VRef 28 →
        ∃ w', publish_vehicle_data w = (Raise AttributeError, w') ∧
              trace w' = trace w) ∧
  (∀ i, self_attr w "carla_imu_data" = Some i →
        attr_of (heap w) i "angular_velocity" = None →
        readable (heap w) (self_attr w "carla_gnss_data") "header" = true →
        ∃ w', publish_vehicle_data w = (Raise AttributeError, w') ∧
              trace w' = trace w).
Proof.
  intros Hw Hc. open_world w.
  destruct (lookup_self_class d "header" _ eq_refl) as [hd Hhd].
  destruct (lookup_self_class d "carla_lidar_data" _ eq_refl) as [m Hm].
  split.
  - intros g Hg Hnone Hg28. eexists. split.
    + unfold publish_vehicle_data.
      call run_update_vehicle_state_info.
      call run_get_lidar_data.
      erewrite bind_raise; [reflexivity|].
      apply get_gps_data_raises with g; [solve_read|].
      by read_store.
    + done.
  - intros i Hi Hnone Hread.
    apply readable_true in Hread as (g & gh & Hg & Hgh).
    assert (is_Some (attr_of (write 28 "header" hd h) g "header"))
      as [gh' Hgh'].
    { apply attr_write_some. by rewrite Hgh. }
    eexists. split.
    + unfold publish_vehicle_data.
      call run_update_vehicle_state_info.
      call run_get_lidar_data.
      call run_get_gps_data.
      call run_get_odom_data.
      erewrite bind_raise; [reflexivity|].
      eapply get_velocity_data_raises; solve_read.
    + done.
Qed.

Lemma cycle_with_an_unreadable_sample_publishes_nothing_witness :
  (∃ w', publish_vehicle_data gnss_unreadable = (Raise AttributeError, w') ∧
         trace w' = trace gnss_unreadable) ∧
  (∃ w', publish_vehicle_data imu_unreadable = (Raise AttributeError, w') ∧
         trace w' = trace imu_unreadable).
Proof.
  split.
  - apply (proj1 (cycle_with_an_unreadable_sample_publishes_nothing
                    gnss_unreadable eq_refl eq_refl) (VRef 200));
      [vm_compute; reflexivity|vm_compute; reflexivity|congruence].
  - apply (proj2 (cycle_with_an_unreadable_sample_publishes_nothing
                    imu_unreadable eq_refl eq_refl) (VRef 200));
      vm_compute; reflexivity.
Defined.

(** X7.  Of the methods that prepare a message, [get_gps_data] depends on
    [update_vehicle_state_info] having run: on a node that has not polled
    the vehicle yet ([pseudo_heading] is still the [None] of the class) it
    raises AttributeError, after it has written the header and the sample
    into the GPS message and before it writes roll, pitch or heading.  Once
    the vehicle has been polled it returns. *)
Theorem get_gps_data_needs_a_polled_rotation w :
  wired w = true → constructed w = true →
  readable (heap w) (self_attr w "carla_gnss_data") "header" = true →
  self_dict w !! "pseudo_heading" = None →
  ∃ g gh,
    self_attr w "carla_gnss_data" = Some g ∧
    attr_of (heap w) g "header" = Some gh ∧
    (∃ w', get_gps_data w = (Raise AttributeError, w') ∧
       attr_of (heap w') (VRef 14) "header" = Some gh ∧
       attr_of (heap w') (VRef 14) "gps" = Some g ∧
       (∀ v a, a ≠ "header" → a ≠ "gps" →
          attr_of (heap w') v a = attr_of (heap w) v a) ∧
       self_dict w' = self_dict w ∧ trace w' = trace w) ∧
    (∃ w1 w2, update_vehicle_state_info w = (Return tt, w1) ∧
       get_gps_data w1 = (Return tt, w2)).
Proof.
  intros Hw Hc Hread Hnone. open_world w.
  match goal with
  | Hg : lookup_self d "carla_gnss_data" = Some ?g,
    Hgh : attr_of h ?g "header" = Some ?gh |- _ => exists g, gh
  end.
  destruct (lookup_self_class d "header" _ eq_refl) as [hd Hhd].
  splits; try done.
  - eexists. split.
    + assert (lookup_self d "pseudo_heading" = Some VNone) as Hph.
      { unfold lookup_self. by rewrite Hnone. }
      unfold get_gps_data. do 8 step.
      by erewrite bind_raise by (by apply run_getattr_raise).
    + cbn [heap self_dict trace]. splits; try done.
      * by read_store.
      * by read_store.
      * intros v a Ha Hb. by rewrite !attr_write_key by done.
  - match goal with
    | Hg : lookup_self d "carla_gnss_data" = Some ?g |- _ =>
        assert (is_Some (attr_of (write 28 "header" hd h) g "header"))
          as [gh' Hgh'] by (apply attr_write_some; eauto)
    end.
    do 2 eexists. split.
    + eapply run_update_vehicle_state_info; solve_read.
    + eapply run_get_gps_data; try solve_read.
Qed.

Lemma get_gps_data_needs_a_polled_rotation_witness :
  ∃ g gh,
    self_attr driving "carla_gnss_data" = Some g ∧
    attr_of (heap driving) g "header" = Some gh ∧
    (∃ w', get_gps_data driving = (Raise AttributeError, w') ∧
       attr_of (heap w') (VRef 14) "header" = Some gh ∧
       attr_of (heap w') (VRef 14) "gps" = Some g ∧
       (∀ v a, a ≠ "header" → a ≠ "gps" →
          attr_of (heap w') v a = attr_of (heap driving) v a) ∧
       self_dict w' = self_dict driving ∧ trace w' = trace driving) ∧
    (∃ w1 w2, update_vehicle_state_info driving = (Return tt, w1) ∧
       get_gps_data w1 = (Return tt, w2)).
Proof.
  apply (get_gps_data_needs_a_polled_rotation driving);
    vm_compute; reflexivity.
Defined.

End CycleFailures.

Section CallbackFailures.

  Import VehicleInfoPublisher.

(** X8.  The LiDAR callback fails halfway on a sample whose header is a
    value of a built-in type ([None], a number, a string): it raises
    AttributeError when it sets [frame_id], after it has made that value the
    header the node shares.  The sample itself is not stored, nothing is
    logged and no object is written. *)
Theorem lidar_callback_rebinds_the_header_before_it_fails w m x :
  attr_of (heap w) m "header" = Some x → builtin x = true →
  ∃ w', update_carla_lidar_data m w = (Raise AttributeError, w') ∧
    self_attr w' "header" = Some x ∧
    (∀ a, a ≠ "header" → self_attr w' a = self_attr w a) ∧
    heap w' = heap w ∧ trace w' = trace w.
Proof.
  intros Hm Hx. destruct w as [h d k n t]. cbn [heap] in Hm.
  eexists. split.
  - unfold update_carla_lidar_data. do 3 step.
    erewrite bind_raise; [reflexivity|].
    by destruct x.
  - cbn [heap trace]. unfold self_attr. cbn [self_dict].
    rewrite lookup_self_insert_eq. splits; try done.
    intros a Ha. by rewrite lookup_self_insert_ne.
Qed.

Lemma lidar_callback_rebinds_the_header_before_it_fails_witness :
  ∃ w', update_carla_lidar_data (VRef 200) headless
          = (Raise AttributeError, w') ∧
    self_attr w' "header" = Some VNone ∧
    (∀ a, a ≠ "header" → self_attr w' a = self_attr headless a) ∧
    heap w' = heap headless ∧ trace w' = trace headless.
Proof.
  apply (lidar_callback_rebinds_the_header_before_it_fails headless
           (VRef 200) VNone); vm_compute; reflexivity.
Defined.

End CallbackFailures.

Section Firings.

  Import VehicleInfoPublisher.

Lemma lookup_write_eq l a x (h : gmap positive (gmap string val)) :
  write l a x h !! l = insert a x <$> h !! l.
Proof. by rewrite lookup_write, decide_True. Qed.

Ltac at_object :=
  repeat first [rewrite lookup_write_eq | rewrite lookup_write_ne by done].

Ltac same_fields :=
  apply map_eq; intros key;
  repeat match goal with
  | |- context [<[?a := _]> _ !! key] =>
      destruct (decide (a = key)) as [<-|];
      [ by repeat first [rewrite lookup_insert_eq
                        | rewrite lookup_insert_ne by done]
      | rewrite !(lookup_insert_ne _ a key) by done ]
  end; try done.

Ltac same_object :=
  at_object;
  match goal with
  | |- context [?h !! ?l] =>
      destruct (h !! l) as [o|];
      cbn [fmap option_fmap option_map]; [f_equal; same_fields|done]
  end.

Ltac outside :=
  unfold cycle_attributes;
  repeat (apply not_elem_of_cons; split; [done|]); apply not_elem_of_nil.

Lemma the_after_cycle w a :
  a ∉ cycle_attributes → the (after_cycle w) a = the w a.
Proof.
  intros Ha. unfold the. rewrite cycle_dict_keeps; [done|..];
    intros ->; apply Ha; unfold cycle_attributes; repeat constructor.
Qed.

Lemma cycle_heap_settled w :
  wired w = true → fed w = true →
  cycle_heap (after_cycle w) = cycle_heap w.
Proof.
  intros Hw Hf.
  assert (the_attr (cycle_heap w) (the w "carla_gnss_data") "header"
          = the_attr (heap w) (the w "carla_gnss_data") "header") as Hgh.
  { unfold the_attr. rewrite cycle_heap_foreign; [done|].
    unfold fed in Hf. bools. unfold the.
    destruct (self_attr w "carla_gnss_data"); [done|].
    by vm_compute. }
  unfold cycle_heap at 1.
  rewrite !the_after_cycle by outside.
  cbn [after_cycle heap sim]. rewrite Hgh.
  generalize (the_attr (cycle_heap w) (the w "carla_imu_data")
                "angular_velocity").
  intros av'. unfold cycle_heap.
  generalize (the_attr (heap w) (the w "carla_imu_data") "angular_velocity").
  generalize (the_attr (heap w) (the w "carla_gnss_data") "header").
  generalize (the w "header"), (the w "carla_gnss_data").
  generalize (carla_location_to_ros_vector3
                (carla.location (transform (sim w)))).
  generalize (carla_velocity_to_ros_twist (velocity (sim w))
                (angular_velocity (sim w))).
  generalize (heap w). clear. intros h tw pos hd g gh av.
  apply map_eq. intros l.
  destruct (decide (12 = l)%positive) as [<-|]; [same_object|].
  destruct (decide (14 = l)%positive) as [<-|]; [same_object|].
  destruct (decide (18 = l)%positive) as [<-|]; [same_object|].
  destruct (decide (26 = l)%positive) as [<-|]; [same_object|].
  destruct (decide (28 = l)%positive) as [<-|]; [same_object|].
  destruct (decide (30 = l)%positive) as [<-|]; [same_object|].
  destruct (decide (31 = l)%positive) as [<-|]; [same_object|].
  by at_object.
Qed.

Lemma cycle_dict_settled w : cycle_dict (after_cycle w) = cycle_dict w.
Proof.
  unfold cycle_dict at 1.
  rewrite !the_after_cycle by outside.
  cbn [after_cycle self_dict sim]. unfold cycle_dict. same_fields.
Qed.

Lemma published_settled w : published (after_cycle w) = published w.
Proof.
  unfold published, handle_of.
  rewrite !the_after_cycle by outside.
  by rewrite !cycle_dict_keeps by done.
Qed.

Lemma run_firings n w :
  wired w = true → constructed w = true → fed w = true →
  firings n (after_cycle w) =
  (Return tt,
   World (cycle_heap w) (cycle_dict w) (sim w) (handles w)
     (trace (after_cycle w)
        ++ concat (replicate n
                     (published w ++ [ELog "debug" "Data published"])))).
Proof.
  revert w. induction n as [|n IH]; intros w Hw Hc Hf.
  - cbn [firings replicate concat]. by rewrite app_nil_r.
  - cbn [firings].
    erewrite bind_run.
    2:{ apply run_publish_vehicle_data;
          [by apply wired_after_cycle
          |by rewrite constructed_after_cycle
          |by apply fed_after_cycle]. }
    rewrite IH;
      [|by apply wired_after_cycle|by rewrite constructed_after_cycle
       |by apply fed_after_cycle].
    rewrite cycle_heap_settled, cycle_dict_settled, published_settled by done.
    unfold after_cycle at 3.
    cbn [sim handles trace replicate concat].
    rewrite published_settled.
    do 2 f_equal. by rewrite <- !app_assoc.
Qed.

(** X9.  With no sample delivered in between and the vehicle polled in the
    same state, further firings of the timer change nothing in the store:
    after any number of firings the objects and the attributes of the node
    are what the first firing left, and each firing has published the same
    six messages, in the same order, and logged once. *)
Theorem firings_settle_after_the_first n w :
  wired w = true → constructed w = true → fed w = true →
  ∃ w1 wn,
    publish_vehicle_data w = (Return tt, w1) ∧
    firings (S n) w = (Return tt, wn) ∧
    heap wn = heap w1 ∧ self_dict wn = self_dict w1 ∧
    trace wn = trace w ++ concat (replicate (S n)
                 (published w ++ [ELog "debug" "Data published"])).
Proof.
  intros Hw Hc Hf. do 2 eexists.
  split; [by apply run_publish_vehicle_data|].
  cbn [firings]. erewrite bind_run by (by apply run_publish_vehicle_data).
  rewrite run_firings by done. split; [reflexivity|].
  cbn [heap self_dict trace after_cycle replicate concat].
  splits; try done. by rewrite <- !app_assoc.
Qed.

Lemma firings_settle_after_the_first_witness :
  ∃ w1 wn,
    publish_vehicle_data driving = (Return tt, w1) ∧
    firings 3 driving = (Return tt, wn) ∧
    heap wn = heap w1 ∧ self_dict wn = self_dict w1 ∧
    trace wn = trace driving ++ concat (replicate 3
                 (published driving ++ [ELog "debug" "Data published"])).
Proof.
  apply (firings_settle_after_the_first 2 driving); vm_compute; reflexivity.
Defined.

End Firings.

(** * The keyboard controller *)

Section Numbers.

Lemma ltb_leb (f g : float) : (f <? g)%float = true → (f <=? g)%float = true.
Proof.
  rewrite FloatAxioms.ltb_spec, FloatAxioms.leb_spec.
  unfold SpecFloat.SFltb, SpecFloat.SFleb.
  by destruct (SpecFloat.SFcompare _ _) as [[]|].
Qed.

Lemma num_lt_le a b : num_lt a b = true → num_le a b = true.
Proof.
  destruct a as [n|f], b as [m|g]; unfold num_lt, num_le.
  - intros H. apply Z.leb_le. apply Z.ltb_lt in H. by apply Z.lt_le_incl.
  - by destruct (int_compare_float n g) as [[]|].
  - by destruct (int_compare_float m f) as [[]|].
  - apply ltb_leb.
Qed.

Lemma clamp_bounds v :
  num_le (Float (-0.7)) (py_min (Float 0.7) (py_max (Float (-0.7)) v)) = true ∧
  num_le (py_min (Float 0.7) (py_max (Float (-0.7)) v)) (Float 0.7) = true.
Proof.
  unfold py_max, num_gt.
  destruct (num_lt (Float (-0.7)) v) eqn:Hlow.
  - unfold py_min. destruct (num_lt v (Float 0.7)) eqn:Hhigh.
    + split; by apply num_lt_le.
    + split; vm_compute; reflexivity.
  - split; vm_compute; reflexivity.
Qed.

Lemma clamp_bounds_as_fractions :
  FloatOps.Prim2SF 0.7 = SpecFloat.S754_finite false 6305039478318694 (-53) ∧
  FloatOps.Prim2SF (-0.7) = SpecFloat.S754_finite true 6305039478318694 (-53).
Proof. split; vm_compute; reflexivity. Qed.

(** The only [int] between the two limits is 0. *)
Lemma clamp_in_range v :
  in_range (py_min (Float 0.7) (py_max (Float (-0.7)) v)) = true.
Proof.
  unfold py_max, py_min, num_gt.
  destruct (num_lt (Float (-0.7)) v) eqn:Hlow;
    [|by destruct (num_lt _ _)].
  destruct (num_lt v (Float 0.7)) eqn:Hhigh; [|done].
  destruct v as [n|f]; [|done].
  unfold num_lt, int_compare_float in Hlow, Hhigh.
  destruct clamp_bounds_as_fractions as [Hp Hn].
  rewrite Hn in Hlow. rewrite Hp in Hhigh.
  change (0 <=? -53)%Z with false in Hlow, Hhigh.
  change (- (-53))%Z with 53%Z in Hlow, Hhigh.
  cbv iota in Hlow, Hhigh.
  change (2 ^ 53)%Z with 9007199254740992%Z in Hlow, Hhigh.
  destruct (Z.compare_spec (n * 9007199254740992) (Z.neg 6305039478318694))
    as [E|E|E]; try discriminate Hlow.
  destruct (Z.compare_spec (n * 9007199254740992) (Z.pos 6305039478318694))
    as [E'|E'|E']; try discriminate Hhigh.
  unfold in_range, convertible.
  change (2 ^ 63)%Z with 9223372036854775808%Z.
  apply Z.ltb_lt. lia.
Qed.

(** On a [convertible] int, [float_of_int] is the conversion of Python:
    the nearest [float], ties to even. *)
Lemma float_of_int_rounds n :
  convertible n = true →
  FloatOps.Prim2SF (float_of_int n) =
  match n with
  | Z0 => SpecFloat.S754_zero false
  | Zpos p =>
      SpecFloat.binary_normalize FloatOps.prec FloatOps.emax (Zpos p) 0 false
  | Zneg p =>
      SpecFloat.SFopp
        (SpecFloat.binary_normalize FloatOps.prec FloatOps.emax (Zpos p) 0
           false)
  end.
Proof.
  unfold convertible. intros Hn. apply Z.ltb_lt in Hn.
  change (2 ^ 63)%Z with 9223372036854775808%Z in Hn.
  assert (∀ p, (Z.pos p < 9223372036854775808)%Z →
            Uint63Axioms.to_Z (Uint63.of_Z (Z.pos p)) = Z.pos p) as Hp.
  { intros p Hlt. rewrite Uint63.of_Z_spec. apply Z.mod_small.
    change Uint63.wB with 9223372036854775808%Z. lia. }
  destruct n as [|p|p]; unfold float_of_int.
  - vm_compute. reflexivity.
  - rewrite FloatAxioms.of_uint63_spec, Hp; [done|]. lia.
  - rewrite FloatAxioms.opp_spec, FloatAxioms.of_uint63_spec, Hp; [done|]. lia.
Qed.

End Numbers.

Ltac krun :=
  cbv [mbind K_bind mret K_ret
       KeyboardControl.set_throttle KeyboardControl.set_steer
       KeyboardControl.set_brake KeyboardControl.set_hand_brake
       KeyboardControl.set_reverse KeyboardControl.set_gear
       the_control self set_control set_steer_cache debug ask_call
       fst snd keyboard calls control lights steer_cache reverse_gear
       throttle steer brake hand_brake reverse manual_gear_shift gear].

Ltac open_cockpit s :=
  let rg := fresh "rg" in let th := fresh "th" in let st := fresh "st" in
  let br := fresh "br" in let hb := fresh "hb" in let rv := fresh "rv" in
  let mgs := fresh "mgs" in let g := fresh "g" in let l := fresh "l" in
  let sc := fresh "sc" in let cs := fresh "cs" in
  destruct s as [[rg [th st br hb rv mgs g] l sc] cs].

Ltac key_cases keys :=
  destruct (keys pygame.K_UP || keys pygame.K_w),
    (keys pygame.K_DOWN || keys pygame.K_s),
    (keys pygame.K_LEFT || keys pygame.K_a),
    (keys pygame.K_RIGHT || keys pygame.K_d); krun;
  repeat match goal with
  | |- context [if num_gt ?a ?b then _ else _] => destruct (num_gt a b)
  | |- context [if num_lt ?a ?b then _ else _] => destruct (num_lt a b)
  end; krun.

Ltac appended :=
  first
    [ exists []; split; [by rewrite app_nil_r|reflexivity]
    | rewrite <- ?app_assoc; eexists; split; reflexivity ].

Section Frames.

  Variables c_float round1 : float → float.

  Local Abbreviation parse_vehicle_cmd :=
    (KeyboardControl.parse_vehicle_cmd c_float round1).
  Local Abbreviation parse_events :=
    (KeyboardControl.parse_events c_float round1).
  Local Abbreviation event_loop := KeyboardControl.event_loop.

Lemma parse_vehicle_cmd_steer keys ms s :
  ∃ v, steer_cache (keyboard (parse_vehicle_cmd keys ms s).2)
       = py_min (Float 0.7) (py_max (Float (-0.7)) v).
Proof.
  open_cockpit s. unfold KeyboardControl.parse_vehicle_cmd.
  key_cases keys; eexists; reflexivity.
Qed.

(** What [parse_vehicle_cmd] leaves alone: the lights, the gear and the
    direction; and it asks nothing of the vehicle. *)
Lemma parse_vehicle_cmd_keeps keys ms s :
  let s' := (parse_vehicle_cmd keys ms s).2 in
  lights (keyboard s') = lights (keyboard s) ∧
  reverse_gear (keyboard s') = reverse_gear (keyboard s) ∧
  gear (control (keyboard s')) = gear (control (keyboard s)) ∧
  reverse (control (keyboard s')) = reverse (control (keyboard s)) ∧
  manual_gear_shift (control (keyboard s'))
    = manual_gear_shift (control (keyboard s)) ∧
  ∃ new, calls s' = calls s ++ new ∧ filter on_sim_env new = [].
Proof.
  open_cockpit s. unfold KeyboardControl.parse_vehicle_cmd.
  key_cases keys; splits; try reflexivity; appended.
Qed.

Lemma on_keyup_keeps key s :
  let s' := (KeyboardControl.on_keyup key s).2 in
  lights (keyboard s') = lights (keyboard s) ∧
  reverse_gear (keyboard s') = reverse_gear (keyboard s) ∧
  steer_cache (keyboard s') = steer_cache (keyboard s) ∧
  throttle (control (keyboard s')) = throttle (control (keyboard s)) ∧
  steer (control (keyboard s')) = steer (control (keyboard s)) ∧
  brake (control (keyboard s')) = brake (control (keyboard s)) ∧
  hand_brake (control (keyboard s')) = hand_brake (control (keyboard s)) ∧
  reverse (control (keyboard s')) = reverse (control (keyboard s)) ∧
  manual_gear_shift (control (keyboard s'))
    = manual_gear_shift (control (keyboard s)) ∧
  gear (control (keyboard s'))
    = (if is_q_release (pygame.KEYUP key)
       then if reverse (control (keyboard s)) then 1 else -1
       else gear (control (keyboard s)))%Z ∧
  ∃ new, calls s' = calls s ++ new ∧
         filter on_sim_env new = restarts [pygame.KEYUP key].
Proof.
  open_cockpit s. unfold KeyboardControl.on_keyup.
  destruct key; krun; cbn [is_q_release]; splits; try reflexivity; appended.
Qed.

Lemma event_loop_keeps events s :
  let s' := (event_loop events s).2 in
  lights (keyboard s') = lights (keyboard s) ∧
  reverse_gear (keyboard s') = reverse_gear (keyboard s) ∧
  steer_cache (keyboard s') = steer_cache (keyboard s) ∧
  throttle (control (keyboard s')) = throttle (control (keyboard s)) ∧
  steer (control (keyboard s')) = steer (control (keyboard s)) ∧
  brake (control (keyboard s')) = brake (control (keyboard s)) ∧
  hand_brake (control (keyboard s')) = hand_brake (control (keyboard s)) ∧
  reverse (control (keyboard s')) = reverse (control (keyboard s)) ∧
  manual_gear_shift (control (keyboard s'))
    = manual_gear_shift (control (keyboard s)) ∧
  ∃ new, calls s' = calls s ++ new ∧
         (pygame.QUIT ∉ events → filter on_sim_env new = restarts events).
Proof.
  revert s. induction events as [|[|key|type] rest IH]; intros s.
  - cbn. splits; try done. exists []. by rewrite app_nil_r.
  - cbn. splits; try done. exists []. split; [by rewrite app_nil_r|].
    intros Hq. exfalso. apply Hq. constructor.
  - cbn [KeyboardControl.event_loop]. unfold mbind, K_bind.
    pose proof (on_keyup_keeps key s) as Hk. cbn zeta in Hk.
    destruct (KeyboardControl.on_keyup key s) as [[] s1]. cbn [snd] in Hk.
    specialize (IH s1). cbn zeta in IH.
    destruct IH as (-> & -> & -> & -> & -> & -> & -> & -> & -> & n2 & -> & F2).
    destruct Hk as (-> & -> & -> & -> & -> & -> & -> & -> & -> & _ & n1 & -> & F1).
    splits; try done. exists (n1 ++ n2).
    split; [by rewrite app_assoc|].
    intros Hq. apply not_elem_of_cons in Hq as [_ Hq].
    rewrite filter_app, F1, F2 by done.
    unfold restarts. cbn [flat_map]. by rewrite app_nil_r.
  - cbn [KeyboardControl.event_loop].
    destruct (IH s) as (? & ? & ? & ? & ? & ? & ? & ? & ? & new & ? & F).
    splits; try done. exists new. split; [done|].
    intros Hq. apply not_elem_of_cons in Hq as [_ Hq]. by apply F.
Qed.

Lemma event_loop_gear events s :
  pygame.QUIT ∉ events →
  event_loop events s = (false, (event_loop events s).2) ∧
  gear (control (keyboard (event_loop events s).2))
    = (if existsb is_q_release events
       then if reverse (control (keyboard s)) then 1 else -1
       else gear (control (keyboard s)))%Z.
Proof.
  revert s. induction events as [|[|key|type] rest IH]; intros s Hq.
  - done.
  - exfalso. apply Hq. constructor.
  - apply not_elem_of_cons in Hq as [_ Hq].
    cbn [KeyboardControl.event_loop existsb]. unfold mbind, K_bind.
    pose proof (on_keyup_keeps key s) as Hk. cbn zeta in Hk.
    destruct (KeyboardControl.on_keyup key s) as [[] s1]. cbn [snd] in Hk.
    destruct (IH s1 Hq) as [Hrun Hgear].
    destruct Hk as (_ & _ & _ & _ & _ & _ & _ & Hrev & _ & Hg & _).
    split; [by rewrite Hrun at 1|].
    rewrite Hgear, Hrev, Hg.
    by destruct (is_q_release (pygame.KEYUP key)), (existsb is_q_release rest).
  - apply not_elem_of_cons in Hq as [_ Hq].
    cbn [KeyboardControl.event_loop existsb is_q_release orb]. by apply IH.
Qed.

Lemma event_loop_quit before after s :
  pygame.QUIT ∉ before →
  event_loop (before ++ pygame.QUIT :: after) s
  = (true, (event_loop before s).2).
Proof.
  revert s. induction before as [|[|key|type] rest IH]; intros s Hq.
  - done.
  - exfalso. apply Hq. constructor.
  - apply not_elem_of_cons in Hq as [_ Hq].
    cbn [KeyboardControl.event_loop app]. unfold mbind, K_bind.
    destruct (KeyboardControl.on_keyup key s) as [[] s1]. by apply IH.
  - apply not_elem_of_cons in Hq as [_ Hq].
    cbn [KeyboardControl.event_loop app]. by apply IH.
Qed.

Lemma first_quit events :
  (∃ before after,
     events = before ++ pygame.QUIT :: after ∧ pygame.QUIT ∉ before) ∨
  pygame.QUIT ∉ events.
Proof.
  induction events as [|e rest [(before & after & -> & Hq)|Hq]].
  - right. apply not_elem_of_nil.
  - destruct e as [|key|type].
    + left. exists [], (before ++ pygame.QUIT :: after).
      split; [done|apply not_elem_of_nil].
    + left. exists (pygame.KEYUP key :: before), after.
      split; [done|]. by apply not_elem_of_cons.
    + left. exists (pygame.OTHER type :: before), after.
      split; [done|]. by apply not_elem_of_cons.
  - destruct e as [|key|type].
    + left. exists [], rest. split; [done|apply not_elem_of_nil].
    + right. by apply not_elem_of_cons.
    + right. by apply not_elem_of_cons.
Qed.

(** A frame without [QUIT], statement by statement. *)
Lemma run_frame events keys ms s :
  pygame.QUIT ∉ events →
  let s2 := (parse_vehicle_cmd keys ms (event_loop events s).2).2 in
  let c := control (keyboard s2) in
  let c' := {| throttle := throttle c; steer := steer c; brake := brake c;
               hand_brake := hand_brake c; reverse := (gear c <? 0)%Z;
               manual_gear_shift := manual_gear_shift c; gear := gear c |} in
  let braking :=
    if truthy (VFloat (brake c))
    then Z.lor (lights (keyboard s)) VehicleLightState.Brake
    else Z.land (lights (keyboard s)) (Z.lnot VehicleLightState.Brake) in
  let reversing :=
    if (gear c <? 0)%Z
    then Z.lor braking VehicleLightState.Reverse
    else Z.land braking (Z.lnot VehicleLightState.Reverse) in
  parse_events events keys ms s =
  (VNone,
   Cockpit {| reverse_gear := reverse_gear (keyboard s2); control := c';
              lights := lights (keyboard s2);
              steer_cache := steer_cache (keyboard s2) |}
     (calls s2
        ++ (if negb (reversing =? lights (keyboard s2))%Z
            then [SetLightState reversing] else [])
        ++ [ApplyControl c'])).
Proof.
  intros Hq. cbn zeta. unfold KeyboardControl.parse_events.
  unfold mbind at 1, K_bind at 1, self at 1.
  unfold mbind at 1, K_bind at 1.
  destruct (event_loop_gear events s Hq) as [Hrun _].
  destruct (event_loop events s) as [returned s1].
  cbn [snd] in *. injection Hrun as ->.
  unfold mbind at 1, K_bind at 1.
  destruct (parse_vehicle_cmd keys ms s1) as [[] s2]. cbn [snd].
  generalize (lights (keyboard s)). intros l0.
  open_cockpit s2. krun.
  destruct (negb _); krun; by rewrite <- ?app_assoc.
Qed.

(** A frame with [QUIT] in its queue. *)
Lemma run_quit before after keys ms s :
  pygame.QUIT ∉ before →
  parse_events (before ++ pygame.QUIT :: after) keys ms s
  = (VBool true, (event_loop before s).2).
Proof.
  intros Hq. unfold KeyboardControl.parse_events.
  unfold mbind at 1, K_bind at 1, self at 1.
  unfold mbind at 1, K_bind at 1.
  by rewrite event_loop_quit.
Qed.

(** X10.  Steering is clamped.  For a clock value and a [steer_cache]
    that Python converts to [float] as the model does (every [float], NaN
    and the infinities included, and the [int]s below 2^63; beyond the
    range of [float] Python raises OverflowError, and nothing is said about
    that here), [steer_cache] is a number between -0.7 and 0.7 after
    [parse_vehicle_cmd], whatever keys are held, and so it is after every
    frame that [parse_events] handles to its end.  It stays such a number,
    in every frame, so from the constructor on the bound holds frame after
    frame. *)
Theorem steer_cache_stays_within_its_limits events keys ms s :
  convertible ms = true →
  in_range (steer_cache (keyboard s)) = true →
  (let s' := (parse_vehicle_cmd keys ms s).2 in
   num_le (Float (-0.7)) (steer_cache (keyboard s')) = true ∧
   num_le (steer_cache (keyboard s')) (Float 0.7) = true ∧
   in_range (steer_cache (keyboard s')) = true) ∧
  (let r := parse_events events keys ms s in
   in_range (steer_cache (keyboard r.2)) = true ∧
   (r.1 = VNone →
    num_le (Float (-0.7)) (steer_cache (keyboard r.2)) = true ∧
    num_le (steer_cache (keyboard r.2)) (Float 0.7) = true)).
Proof.
  intros Hms Hs. split.
  - cbn zeta. destruct (parse_vehicle_cmd_steer keys ms s) as [v ->].
    destruct (clamp_bounds v). splits; try done. apply clamp_in_range.
  - cbn zeta. destruct (first_quit events) as [(before & after & -> & Hq)|Hq].
    + rewrite run_quit by done. cbn [fst snd]. split; [|by intros [=]].
      by destruct (event_loop_keeps before s) as (_ & _ & -> & _).
    + rewrite run_frame by done. cbn [fst snd keyboard steer_cache].
      destruct (parse_vehicle_cmd_steer keys ms (event_loop events s).2)
        as [v ->].
      split; [apply clamp_in_range|]. intros _. apply clamp_bounds.
Qed.

(** The first frame fact used below: what the two parts of a frame leave
    of the state they start from. *)
Lemma frame_calls events keys ms s :
  let s2 := (parse_vehicle_cmd keys ms (event_loop events s).2).2 in
  lights (keyboard s2) = lights (keyboard s) ∧
  gear (control (keyboard s2))
    = gear (control (keyboard (event_loop events s).2)) ∧
  ∃ new, calls s2 = calls s ++ new ∧
         (pygame.QUIT ∉ events → filter on_sim_env new = restarts events).
Proof.
  cbn zeta.
  destruct (parse_vehicle_cmd_keeps keys ms (event_loop events s).2)
    as (-> & _ & -> & _ & _ & n2 & -> & F2).
  destruct (event_loop_keeps events s)
    as (-> & _ & _ & _ & _ & _ & _ & _ & _ & n1 & -> & F1).
  splits; try done. exists (n1 ++ n2).
  split; [by rewrite app_assoc|].
  intros Hq. by rewrite filter_app, F1, F2, app_nil_r.
Qed.

(** X11.  In a frame without [QUIT], releasing Q switches the direction
    once, however often Q was released in that frame: the gear becomes 1
    when the vehicle was in reverse and -1 when it was not, [reverse] is
    set from the sign of the gear after the keys have been read, and the
    control that is applied, as the last call of the frame, is the
    control of the controller with that direction.  Without a release of Q
    the gear stays. *)
Theorem q_switches_the_direction_once events keys ms s :
  pygame.QUIT ∉ events →
  ∃ s', parse_events events keys ms s = (VNone, s') ∧
    gear (control (keyboard s'))
      = (if existsb is_q_release events
         then if reverse (control (keyboard s)) then 1 else -1
         else gear (control (keyboard s)))%Z ∧
    reverse (control (keyboard s'))
      = (gear (control (keyboard s')) <? 0)%Z ∧
    (existsb is_q_release events = true →
     reverse (control (keyboard s'))
       = negb (reverse (control (keyboard s)))) ∧
    last (calls s') = Some (ApplyControl (control (keyboard s'))).
Proof.
  intros Hq. eexists. split; [by apply run_frame|].
  cbn [keyboard control calls gear reverse].
  destruct (frame_calls events keys ms s) as (_ & -> & _).
  destruct (event_loop_gear events s Hq) as [_ ->].
  splits; try done.
  - intros ->. by destruct (reverse (control (keyboard s))).
  - by rewrite !app_assoc, last_snoc.
Qed.

(** X12.  The controller never changes [self.lights], so in a frame
    without [QUIT] it asks the vehicle for a light state exactly when the
    brake is applied or the direction is reverse, with the flags of those
    two, and in no other frame: releasing the brake asks for nothing.  All
    that the frame asks of [sim_env] and its vehicle is, in this order:
    [destroy()] and [restart()] once for each release of R, that light
    state if any, and one [apply_control]. *)
Theorem lights_are_requested_while_braking_or_reversing events keys ms s :
  lights (keyboard s) = VehicleLightState.NONE →
  pygame.QUIT ∉ events →
  ∃ s', parse_events events keys ms s = (VNone, s') ∧
    lights (keyboard s') = VehicleLightState.NONE ∧
    filter on_sim_env (drop (length (calls s)) (calls s'))
    = restarts events
      ++ (if truthy (VFloat (brake (control (keyboard s'))))
             || reverse (control (keyboard s'))
          then [SetLightState
                  (Z.lor (if truthy (VFloat (brake (control (keyboard s'))))
                          then VehicleLightState.Brake else 0)
                         (if reverse (control (keyboard s'))
                          then VehicleLightState.Reverse else 0))]
          else [])
      ++ [ApplyControl (control (keyboard s'))].
Proof.
  intros Hl Hq. eexists. split; [by apply run_frame|].
  cbn [keyboard control calls lights brake reverse].
  destruct (frame_calls events keys ms s) as (-> & _ & new & -> & Hnew).
  rewrite Hl. split; [done|].
  rewrite <- app_assoc, drop_app_length, filter_app, Hnew by done.
  f_equal.
  by destruct (truthy _), (_ <? _)%Z.
Qed.

(** X13.  [QUIT] ends the frame where it stands in the queue: the method
    returns [True], the events behind it are dropped, the keys and the
    clock are not read, and throttle, steering, brake, hand brake,
    direction and lights are what they were; no control is applied and no
    light state is asked for.  Key releases queued before it have been
    acted on: each release of R has called [destroy()] and [restart()] of
    [sim_env] (nothing else is asked of it), and a release of Q has changed
    the gear, though not [reverse]. *)
Theorem quit_ends_the_frame before after keys ms s :
  pygame.QUIT ∉ before →
  ∃ s', parse_events (before ++ pygame.QUIT :: after) keys ms s
          = (VBool true, s') ∧
    s' = (event_loop before s).2 ∧
    steer_cache (keyboard s') = steer_cache (keyboard s) ∧
    lights (keyboard s') = lights (keyboard s) ∧
    throttle (control (keyboard s')) = throttle (control (keyboard s)) ∧
    steer (control (keyboard s')) = steer (control (keyboard s)) ∧
    brake (control (keyboard s')) = brake (control (keyboard s)) ∧
    hand_brake (control (keyboard s')) = hand_brake (control (keyboard s)) ∧
    reverse (control (keyboard s')) = reverse (control (keyboard s)) ∧
    gear (control (keyboard s'))
      = (if existsb is_q_release before
         then if reverse (control (keyboard s)) then 1 else -1
         else gear (control (keyboard s)))%Z ∧
    filter on_sim_env (drop (length (calls s)) (calls s')) = restarts before.
Proof.
  intros Hq. eexists. split; [by apply run_quit|].
  destruct (event_loop_gear before s Hq) as [_ ->].
  destruct (event_loop_keeps before s)
    as (-> & _ & -> & -> & -> & -> & -> & -> & _ & new & -> & Hnew).
  splits; try done. rewrite drop_app_length. by apply Hnew.
Qed.

End Frames.

Lemma holding_left_saturates :
  steer_cache (keyboard
    (KeyboardControl.parse_vehicle_cmd (fun f => f) (fun f => f)
       only_left 1000000 seated).2) = Float (-0.7).
Proof. vm_compute. reflexivity. Qed.

Lemma steer_cache_stays_within_its_limits_witness :
  (let s' := (KeyboardControl.parse_vehicle_cmd (fun f => f) (fun f => f)
                only_left 16 seated).2 in
   num_le (Float (-0.7)) (steer_cache (keyboard s')) = true ∧
   num_le (steer_cache (keyboard s')) (Float 0.7) = true ∧
   in_range (steer_cache (keyboard s')) = true) ∧
  (let r := KeyboardControl.parse_events (fun f => f) (fun f => f)
              [pygame.KEYUP pygame.K_q] only_left 16 seated in
   in_range (steer_cache (keyboard r.2)) = true ∧
   (r.1 = VNone →
    num_le (Float (-0.7)) (steer_cache (keyboard r.2)) = true ∧
    num_le (steer_cache (keyboard r.2)) (Float 0.7) = true)).
Proof.
  apply (steer_cache_stays_within_its_limits (fun f => f) (fun f => f)
           [pygame.KEYUP pygame.K_q] only_left 16 seated);
    vm_compute; reflexivity.
Defined.

Lemma q_switches_the_direction_once_witness :
  ∃ s', KeyboardControl.parse_events (fun f => f) (fun f => f)
          [pygame.KEYUP pygame.K_q; pygame.OTHER 768; pygame.KEYUP pygame.K_q]
          no_key 16 seated = (VNone, s') ∧
    gear (control (keyboard s'))
      = (if existsb is_q_release
              [pygame.KEYUP pygame.K_q; pygame.OTHER 768;
               pygame.KEYUP pygame.K_q]
         then if reverse (control (keyboard seated)) then 1 else -1
         else gear (control (keyboard seated)))%Z ∧
    reverse (control (keyboard s'))
      = (gear (control (keyboard s')) <? 0)%Z ∧
    (existsb is_q_release
       [pygame.KEYUP pygame.K_q; pygame.OTHER 768; pygame.KEYUP pygame.K_q]
     = true →
     reverse (control (keyboard s'))
       = negb (reverse (control (keyboard seated)))) ∧
    last (calls s') = Some (ApplyControl (control (keyboard s'))).
Proof.
  apply (q_switches_the_direction_once (fun f => f) (fun f => f)
           [pygame.KEYUP pygame.K_q; pygame.OTHER 768; pygame.KEYUP pygame.K_q]
           no_key 16 seated).
  repeat (apply not_elem_of_cons; split; [done|]). apply not_elem_of_nil.
Defined.

Lemma lights_are_requested_while_braking_or_reversing_witness :
  ∃ s', KeyboardControl.parse_events (fun f => f) (fun f => f)
          [pygame.KEYUP pygame.K_r; pygame.KEYUP pygame.K_q]
          only_s 16 seated = (VNone, s') ∧
    lights (keyboard s') = VehicleLightState.NONE ∧
    filter on_sim_env (drop (length (calls seated)) (calls s'))
    = restarts [pygame.KEYUP pygame.K_r; pygame.KEYUP pygame.K_q]
      ++ (if truthy (VFloat (brake (control (keyboard s'))))
             || reverse (control (keyboard s'))
          then [SetLightState
                  (Z.lor (if truthy (VFloat (brake (control (keyboard s'))))
                          then VehicleLightState.Brake else 0)
                         (if reverse (control (keyboard s'))
                          then VehicleLightState.Reverse else 0))]
          else [])
      ++ [ApplyControl (control (keyboard s'))].
Proof.
  apply (lights_are_requested_while_braking_or_reversing
           (fun f => f) (fun f => f)
           [pygame.KEYUP pygame.K_r; pygame.KEYUP pygame.K_q]
           only_s 16 seated).
  - reflexivity.
  - repeat (apply not_elem_of_cons; split; [done|]). apply not_elem_of_nil.
Defined.

(** A frame with a release of R, a release of Q and the brake held, call
    by call. *)
Lemma a_frame_with_r_q_and_the_brake :
  ∃ c,
    KeyboardControl.parse_events (fun f => f) (fun f => f)
      [pygame.KEYUP pygame.K_r; pygame.KEYUP pygame.K_q] only_s 16 seated
    = (VNone,
       Cockpit {| reverse_gear := 1; control := c;
                  lights := VehicleLightState.NONE; steer_cache := Float 0 |}
         [SetLightState 0;
          Debug "Detected KEYUP"; Debug "R pressed!"; Destroy; Restart;
          Debug "Detected KEYUP"; Debug "Q pressed!";
          Debug "Brake!"; SetLightState 72; ApplyControl c]) ∧
    brake c = 0.1%float ∧ reverse c = true ∧ gear c = (-1)%Z.
Proof. eexists. vm_compute. done. Qed.

Lemma quit_ends_the_frame_witness :
  ∃ s', KeyboardControl.parse_events (fun f => f) (fun f => f)
          ([pygame.KEYUP pygame.K_r; pygame.KEYUP pygame.K_q]
             ++ pygame.QUIT :: [pygame.KEYUP pygame.K_r])
          only_s 16 seated = (VBool true, s') ∧
    s' = (KeyboardControl.event_loop
            [pygame.KEYUP pygame.K_r; pygame.KEYUP pygame.K_q] seated).2 ∧
    steer_cache (keyboard s') = steer_cache (keyboard seated) ∧
    lights (keyboard s') = lights (keyboard seated) ∧
    throttle (control (keyboard s')) = throttle (control (keyboard seated)) ∧
    steer (control (keyboard s')) = steer (control (keyboard seated)) ∧
    brake (control (keyboard s')) = brake (control (keyboard seated)) ∧
    hand_brake (control (keyboard s'))
      = hand_brake (control (keyboard seated)) ∧
    reverse (control (keyboard s')) = reverse (control (keyboard seated)) ∧
    gear (control (keyboard s'))
      = (if existsb is_q_release
              [pygame.KEYUP pygame.K_r; pygame.KEYUP pygame.K_q]
         then if reverse (control (keyboard seated)) then 1 else -1
         else gear (control (keyboard seated)))%Z ∧
    filter on_sim_env (drop (length (calls seated)) (calls s'))
    = restarts [pygame.KEYUP pygame.K_r; pygame.KEYUP pygame.K_q].
Proof.
  apply (quit_ends_the_frame (fun f => f) (fun f => f)
           [pygame.KEYUP pygame.K_r; pygame.KEYUP pygame.K_q]
           [pygame.KEYUP pygame.K_r] only_s 16 seated).
  repeat (apply not_elem_of_cons; split; [done|]). apply not_elem_of_nil.
Defined.
